(** * Rigol oscilloscope capture: waveform acquisition, calibration and
      persistence

    A shallow embedding of [Rigol/DS1104ZPLUS.py] (capture_waveform,
    save_waveform_capture, load_waveform_capture) and of the instrument
    wrapper in [Rigol/RIGOL.py] (RigolInstrument.get_idn,
    classify_instrument, __init__), followed by the properties the
    specification states about them. *)

From Stdlib Require Import ZArith List String Ascii Strings.Byte Floats QArith Qcanon Lia.
From stdpp Require Import base option list strings gmap.

Local Open Scope Z_scope.

(** ** Python values the program touches

    Text ([str]) is a Rocq [string], read as the UTF-8 encoding of the
    Python string; [bytes] is a [list byte]. *)

Inductive exn : Type :=
| IndexError                      (* list index out of range *)
| ValueError                      (* int(), float(), bad header marker, json decode *)
| UnicodeDecodeError              (* bytes.decode('utf-8') *)
| KeyError (key : string)         (* missing dict / archive member *)
| FileNotFoundError (msg : string)
| VisaIOError.                    (* pyvisa.errors.VisaIOError *)

Inductive result (A : Type) : Type :=
| Ok (a : A)
| Raise (e : exn).
Arguments Ok {A} a.
Arguments Raise {A} e.

#[global] Instance result_ret : MRet result := λ A a, Ok a.
#[global] Instance result_bind : MBind result := λ A B f m,
  match m with Ok a => f a | Raise e => Raise e end.
#[global] Instance result_fmap : FMap result := λ A B f m,
  match m with Ok a => Ok (f a) | Raise e => Raise e end.

(** [o] where [None] stands for the given exception. *)
Definition or_raise {A} (e : exn) (o : option A) : result A :=
  match o with Some a => Ok a | None => Raise e end.

(** [l[i]] for a non-negative index. *)
Definition index {A} (l : list A) (i : nat) : result A :=
  or_raise IndexError (l !! i).

(** [l[a:b]] for [0 <= a <= b]; a slice never raises. *)
Definition slice {A} (a b : nat) (l : list A) : list A :=
  take (b - a) (drop a l).

(** Computations on a mutable object of state [T] that may raise: the state
    reached is kept when an exception propagates. *)
Definition io (T A : Type) : Type := T → result A * T.

#[global] Instance io_ret T : MRet (io T) := λ A a t, (Ok a, t).
#[global] Instance io_bind T : MBind (io T) := λ A B f m t,
  match m t with
  | (Ok a, t') => f a t'
  | (Raise e, t') => (Raise e, t')
  end.

Definition lift {T A} (r : result A) : io T A := λ t, (r, t).

(** [try: body finally: handler], for a handler that only updates the
    state. *)
Definition try_finally {T A} (body : io T A) (handler : T → T) : io T A :=
  λ t, let '(r, t') := body t in (r, handler t').

(** ** Characters and the ASCII fragment of [int()] and [str.strip()] *)

Definition code (b : byte) : Z := Z.of_N (Byte.to_N b).

Definition is_digit (b : byte) : bool := (48 <=? code b) && (code b <=? 57).

Definition digit_value (b : byte) : Z := code b - 48.

Definition is_ascii (b : byte) : bool := code b <? 128.

(** Py_ISSPACE, used by [int(bytes)]. *)
Definition is_space_bytes (b : byte) : bool :=
  (code b =? 32) || ((9 <=? code b) && (code b <=? 13)).

(** Whitespace of [str] below U+0080, used by [int(str)] and [str.strip]. *)
Definition is_space_str (b : byte) : bool :=
  is_space_bytes b || ((28 <=? code b) && (code b <=? 31)).

Fixpoint lstrip (space : byte → bool) (l : list byte) : list byte :=
  match l with
  | b :: l' => if space b then lstrip space l' else l
  | [] => []
  end.

Definition strip_bytes (space : byte → bool) (l : list byte) : list byte :=
  rev (lstrip space (rev (lstrip space l))).

(** The decimal value of [digit ("_"? digit)*] continued after a first
    digit of accumulated value [acc]. *)
Fixpoint int_digits (acc : Z) (l : list byte) : option Z :=
  match l with
  | [] => Some acc
  | b :: l' =>
      if is_digit b then int_digits (acc * 10 + digit_value b) l'
      else if code b =? 95 then
        match l' with
        | d :: l'' =>
            if is_digit d then int_digits (acc * 10 + digit_value d) l'' else None
        | [] => None
        end
      else None
  end.

(** [int(x)] in base 10 on ASCII input: surrounding whitespace, an optional
    sign, then digits with single underscores between them. *)
Definition int_ascii (space : byte → bool) (l : list byte) : option Z :=
  let stripped := strip_bytes space l in
  let '(negative, body) :=
    match stripped with
    | b :: rest =>
        if code b =? 45 then (true, rest)
        else if code b =? 43 then (false, rest)
        else (false, stripped)
    | [] => (false, [])
    end in
  match body with
  | d :: rest =>
      if is_digit d
      then (λ v, if negative : bool then - v else v) <$> int_digits (digit_value d) rest
      else None
  | [] => None
  end.

(** [int(b)] for [b : bytes]; the program applies it to a slice of at
    most one byte. *)
Definition py_int_bytes (b : list byte) : result Z :=
  or_raise ValueError (int_ascii is_space_bytes b).

(** What the embedding takes from the Python runtime without modelling it:
    [float(str)], and [int(str)] and [bytes.decode] outside the ASCII
    fragment (Unicode digits and spaces, multi-byte sequences) or beyond
    the length at which newer interpreters refuse to convert. *)
Class Builtins (F : Type) := {
  py_float : string → option F;
  int_beyond_ascii : string → option Z;
  decode_beyond_ascii : list byte → option string;
}.

Section PyText.
Context {F : Type} `{Builtins F}.

Definition ascii_only (l : list byte) : bool := forallb is_ascii l.

(** [int(s)] for [s : str]. *)
Definition py_int_str (s : string) : result Z :=
  let l := list_byte_of_string s in
  or_raise ValueError
    (if ascii_only l && (Nat.leb (length l) 4300)
     then int_ascii is_space_str l
     else int_beyond_ascii s).

(** [float(s)] *)
Definition py_float_str (s : string) : result F :=
  or_raise ValueError (py_float s).

(** [b.decode('utf-8')] *)
Definition decode_utf8 (b : list byte) : result string :=
  if ascii_only b then Ok (string_of_list_byte b)
  else or_raise UnicodeDecodeError (decode_beyond_ascii b).

End PyText.

(** [s.split(sep)] for a one-character separator: never empty. *)
Fixpoint split (sep : ascii) (s : string) : list string :=
  match s with
  | EmptyString => [EmptyString]
  | String c s' =>
      if Ascii.eqb c sep then EmptyString :: split sep s'
      else match split sep s' with
           | w :: ws => String c w :: ws
           | [] => [String c EmptyString]
           end
  end.

(** [s.strip()], for the whitespace below U+0080. *)
Definition strip (s : string) : string :=
  string_of_list_byte (strip_bytes is_space_str (list_byte_of_string s)).

(** [s.upper()] on ASCII letters; other characters are kept. *)
Definition upper_byte (b : byte) : byte :=
  if (97 <=? code b) && (code b <=? 122)
  then match Byte.of_N (Byte.to_N b - 32) with Some u => u | None => b end
  else b.

Definition upper (s : string) : string :=
  string_of_list_byte (upper_byte <$> list_byte_of_string s).

(** [needle in s] *)
Fixpoint contains (needle s : string) : bool :=
  String.prefix needle s ||
  match s with
  | EmptyString => false
  | String _ s' => contains needle s'
  end.

(** ** Numbers

    numpy computes on IEEE binary64 values.  The program only adds,
    subtracts, multiplies, divides, converts integers and takes minima and
    maxima, so the embedding is written once over an interface of these
    operations and instantiated twice: at Rocq's primitive binary64 floats
    (what the program runs on) and at the canonical rationals (the exact
    arithmetic the specification reasons in). *)

Class Numeric (F : Type) := {
  of_int : Z → F;          (* int / uint8 / int64 to float64 *)
  nadd : F → F → F;
  nsub : F → F → F;
  nmul : F → F → F;
  ndiv : F → F → F;
  nmin : F → F → F;        (* np.minimum *)
  nmax : F → F → F;        (* np.maximum *)
}.

Module Float64.

(** Integers of magnitude below 2^53 convert exactly; the program only
    converts byte sums, lengths and indices. *)
Definition of_Z (z : Z) : float :=
  match z with
  | Z.neg p => PrimFloat.opp (PrimFloat.of_uint63 (Uint63.of_Z (Z.pos p)))
  | _ => PrimFloat.of_uint63 (Uint63.of_Z z)
  end.

(** np.minimum and np.maximum propagate NaN. *)
Definition minimum (x y : float) : float :=
  if PrimFloat.is_nan x then x
  else if PrimFloat.is_nan y then y
  else if PrimFloat.ltb y x then y else x.

Definition maximum (x y : float) : float :=
  if PrimFloat.is_nan x then x
  else if PrimFloat.is_nan y then y
  else if PrimFloat.ltb x y then y else x.

#[global] Instance numeric : Numeric float := {|
  of_int := of_Z;
  nadd := PrimFloat.add;
  nsub := PrimFloat.sub;
  nmul := PrimFloat.mul;
  ndiv := PrimFloat.div;
  nmin := minimum;
  nmax := maximum;
|}.

End Float64.

Module Exact.

Definition of_Z (z : Z) : Qc := Q2Qc (inject_Z z).

Definition minimum (x y : Qc) : Qc :=
  match (y ?= x)%Qc with Lt => y | _ => x end.

Definition maximum (x y : Qc) : Qc :=
  match (x ?= y)%Qc with Lt => y | _ => x end.

#[global] Instance numeric : Numeric Qc := {|
  of_int := of_Z;
  nadd := Qcplus;
  nsub := Qcminus;
  nmul := Qcmult;
  ndiv := Qcdiv;
  nmin := minimum;
  nmax := maximum;
|}.

End Exact.

(** ** The preamble record

    The six values [capture_waveform] extracts from the [:WAV:PRE?] reply
    (the locals [points] ... [y_reference]). *)

Record Preamble (F : Type) := mkPreamble {
  points : Z;
  x_increment : F;
  x_origin : F;
  y_increment : F;
  y_origin : F;
  y_reference : Z;
}.
Arguments mkPreamble {F}.
Arguments points {F}.
Arguments x_increment {F}.
Arguments x_origin {F}.
Arguments y_increment {F}.
Arguments y_origin {F}.
Arguments y_reference {F}.

(** ** Calibration (capture_waveform, lines 58-62) *)

Section Calibration.
Context {F : Type} `{Numeric F}.

(** [np.frombuffer(raw_bytes, dtype=np.uint8)] *)
Definition frombuffer_uint8 (raw_bytes : list byte) : list Z :=
  (λ b, Z.of_N (Byte.to_N b)) <$> raw_bytes.

Definition int_sum (a : list Z) : Z := fold_right Z.add 0 a.

(** [np.mean] of an integer array: the elements are accumulated in
    float64 and the total is divided by the element count.  Every partial
    sum of byte values is an integer below 2^53 for any array that fits
    in memory, hence exact in whatever order numpy adds them, so the
    total is the conversion of the integer sum.  On the empty array numpy
    divides 0.0 by 0 (a NaN and a warning, no exception). *)
Definition np_mean (a : list Z) : F :=
  ndiv (of_int (int_sum a)) (of_int (Z.of_nat (length a))).

(** [np.arange(n)] *)
Definition np_arange (n : nat) : list Z := Z.of_nat <$> seq 0 n.

Definition calibrate (raw_bytes : list byte) (P : Preamble F) : list F * list F :=
  let byte_array := frombuffer_uint8 raw_bytes in
  let mean := np_mean byte_array in
  let y_data := (λ b, nmul (nsub (of_int b) mean) (y_increment P)) <$> byte_array in
  let time_axis :=
    (λ i, nadd (nmul (of_int i) (x_increment P)) (x_origin P))
      <$> np_arange (length y_data) in
  (time_axis, y_data).

End Calibration.

(** ** The instrument session (pyvisa's message-based resource)

    pyvisa is not part of the repository: the session is an interface, with
    the operations the two files call on [inst].  [inst_read_raw n] asks
    for [n] bytes and yields what the session delivers. *)

Class Transport (T : Type) := {
  inst_write : string → io T unit;
  inst_read : io T string;
  inst_query : string → io T string;
  inst_read_raw : Z → io T (list byte);
  inst_timeout : T → Z;
  inst_set_timeout : Z → T → T;
  inst_set_encoding : string → T → T;
}.

(** Only an assignment to [timeout] changes the timeout of a session. *)
Class TransportLaws (T : Type) `{Transport T} : Prop := {
  timeout_set : ∀ z t, inst_timeout (inst_set_timeout z t) = z;
  timeout_write : ∀ c t, inst_timeout (inst_write c t).2 = inst_timeout t;
  timeout_read : ∀ t, inst_timeout (inst_read t).2 = inst_timeout t;
  timeout_query : ∀ c t, inst_timeout (inst_query c t).2 = inst_timeout t;
  timeout_read_raw : ∀ n t, inst_timeout (inst_read_raw n t).2 = inst_timeout t;
}.

(** A scripted session for examples: text replies and binary bytes the
    instrument is going to deliver, the commands received so far, and a
    link that is up or down.  A read of [n] bytes delivers the next [n]
    pending bytes, or fewer when fewer are pending. *)
Module Fake.

Record session : Type := mk {
  timeout : Z;
  encoding : string;
  link_up : bool;
  replies : list string;
  rx : list byte;
  sent : list string;
}.

Definition write (command : string) : io session unit := λ s,
  if link_up s
  then (Ok (), mk (timeout s) (encoding s) true (replies s) (rx s) (sent s ++ [command]))
  else (Raise VisaIOError, s).

Definition read : io session string := λ s,
  if link_up s
  then match replies s with
       | r :: rest => (Ok r, mk (timeout s) (encoding s) true rest (rx s) (sent s))
       | [] => (Raise VisaIOError, s)
       end
  else (Raise VisaIOError, s).

Definition query (command : string) : io session string :=
  write command;; read.

Definition read_raw (n : Z) : io session (list byte) := λ s,
  if link_up s
  then (Ok (take (Z.to_nat n) (rx s)),
        mk (timeout s) (encoding s) true (replies s) (drop (Z.to_nat n) (rx s)) (sent s))
  else (Raise VisaIOError, s).

#[global] Instance transport : Transport session := {|
  inst_write := write;
  inst_read := read;
  inst_query := query;
  inst_read_raw := read_raw;
  inst_timeout := timeout;
  inst_set_timeout := λ z s, mk z (encoding s) (link_up s) (replies s) (rx s) (sent s);
  inst_set_encoding := λ e s, mk (timeout s) e (link_up s) (replies s) (rx s) (sent s);
|}.

End Fake.

(** ** Rigol/RIGOL.py: class RigolInstrument *)

Record RigolInstrument (T : Type) := mkRigolInstrument {
  verbose : Z;
  inst : T;
  idn : string;
  instrument_type : string;
}.
Arguments mkRigolInstrument {T}.
Arguments verbose {T}.
Arguments inst {T}.
Arguments idn {T}.
Arguments instrument_type {T}.

Section RIGOL.
Context {T : Type} `{Transport T}.

(** A method body that works on [self.inst]. *)
Definition on_inst {A} (m : io T A) : io (RigolInstrument T) A := λ self,
  let '(r, i) := m (inst self) in
  (r, mkRigolInstrument (verbose self) i (idn self) (instrument_type self)).

(** [get_idn]: the body of the [try], and the handler that catches
    [VisaIOError] only.  It runs while [__init__] is still filling in the
    object, so it is written on the session, with [self.verbose] as an
    argument; the [print] of the handler and the [sleep] have no effect
    on the result. *)
Definition get_idn (self_verbose : Z) : io T string := λ i,
  match (inst_write "*IDN?";; reply ← inst_read; mret (strip reply)) i with
  | (Raise VisaIOError, i') => (Ok "Unknown"%string, i')
  | outcome => outcome
  end.

Definition classify_instrument (self_idn : string) : string :=
  let idn_upper := upper self_idn in
  if contains "RIGOL" idn_upper && contains "DG" idn_upper then "generator"
  else if contains "RIGOL" idn_upper && (contains "DS" idn_upper || contains "MSO" idn_upper)
  then "oscilloscope"
  else "unknown".

(** [__init__]; [open_resource] is the resource manager's, outside the
    repository. *)
Definition RigolInstrument_init (open_resource : string → result T)
    (resource_name : string) (verbose : Z) : result (RigolInstrument T) :=
  opened ← open_resource resource_name;
  let i := inst_set_encoding "utf-8" (inst_set_timeout 5000 opened) in
  match get_idn verbose i with
  | (Ok idn, i') => Ok (mkRigolInstrument verbose i' idn (classify_instrument idn))
  | (Raise e, _) => Raise e
  end.

Definition write (command : string) : io (RigolInstrument T) unit :=
  on_inst (inst_write command).

Definition query (command : string) : io (RigolInstrument T) string :=
  on_inst (inst_query command).

Definition read : io (RigolInstrument T) string :=
  on_inst inst_read.

End RIGOL.

(** ** Rigol/RIGOL.py: generate_waveform, detect_rigol_instruments *)

Section Generator.
Context {T : Type} `{Transport T}.

(** [getter_idn] *)
Definition getter_idn (self : RigolInstrument T) : string := idn self.

(** [generate_waveform].  The numeric arguments are of any type [V];
    [fmt] is what an f-string writes for them.  The [sleep]s are left
    out.  The parameter [duty_cycle] is accepted and not used. *)
Definition generate_waveform {V : Type} (fmt : V → string)
    (channel waveform_type : string) (frequency amplitude offset phase duty_cycle : V)
  : io (RigolInstrument T) unit :=
  let args := fmt frequency +:+ ", " +:+ fmt amplitude +:+ ", " +:+ fmt offset +:+ " " in
  if String.eqb channel "CH1" then
    write "VOLT:UNIT VPP";;
    write ("APPL:" +:+ waveform_type +:+ " " +:+ args);;
    write ("PHAS " +:+ fmt phase +:+ " ");;
    write "OUTP1 ON"
  else
    write ("VOLT:UNIT:" +:+ channel +:+ " VPP");;
    write ("APPL:" +:+ waveform_type +:+ ":" +:+ channel +:+ " " +:+ args);;
    write ("PHAS:" +:+ channel +:+ " " +:+ fmt phase +:+ " ");;
    write "OUTP:CH2 ON ".

(** [detect_rigol_instruments]: the body of the loop, the loop, and the
    function.  [list_resources] is what the resource manager lists and
    [open_resource] how it opens a resource; the prints are left out.
    Each device is wrapped with the default [verbose=1]. *)
Definition detect_step (open_resource : string → result T)
    (found : option (RigolInstrument T) * option (RigolInstrument T))
    (dev : string)
  : result (option (RigolInstrument T) * option (RigolInstrument T)) :=
  rigol ← RigolInstrument_init open_resource dev 1;
  if String.eqb (instrument_type rigol) "generator" then mret (Some rigol, found.2)
  else if String.eqb (instrument_type rigol) "oscilloscope" then mret (found.1, Some rigol)
  else mret found.

Fixpoint detect_loop (open_resource : string → result T) (devices : list string)
    (found : option (RigolInstrument T) * option (RigolInstrument T))
  : result (option (RigolInstrument T) * option (RigolInstrument T)) :=
  match devices with
  | [] => mret found
  | dev :: rest =>
      found' ← detect_step open_resource found dev;
      detect_loop open_resource rest found'
  end.

Definition detect_rigol_instruments (list_resources : list string)
    (open_resource : string → result T)
  : result (option (RigolInstrument T) * option (RigolInstrument T)) :=
  let devices := List.filter (contains "USB") list_resources in
  detect_loop open_resource devices (None, None).

End Generator.

(** ** Rigol/DS1104ZPLUS.py: capture_waveform *)

(** The values a preamble dictionary, the metadata and the sidecar hold. *)
Inductive scalar (F : Type) : Type :=
| PyNone
| PyBool (b : bool)
| PyInt (z : Z)
| PyFloat (x : F)
| PyStr (s : string).
Arguments PyNone {F}.
Arguments PyBool {F} b.
Arguments PyInt {F} z.
Arguments PyFloat {F} x.
Arguments PyStr {F} s.

Fixpoint bytes_eqb (a b : list byte) : bool :=
  match a, b with
  | [], [] => true
  | x :: a', y :: b' => Byte.eqb x y && bytes_eqb a' b'
  | _, _ => false
  end.

Section Capture.
Context {F : Type} `{Numeric F} `{Builtins F} {T : Type} `{Transport T}.

(** Lines 18-25: the reply split on commas and the six fields converted,
    in the order the source converts them. *)
Definition parse_preamble (preamble : string) : result (Preamble F) :=
  let preamble_values := split "," preamble in
  points ← index preamble_values 2 ≫= py_int_str;
  x_increment ← index preamble_values 4 ≫= py_float_str;
  x_origin ← index preamble_values 5 ≫= py_float_str;
  y_increment ← index preamble_values 7 ≫= py_float_str;
  y_origin ← index preamble_values 8 ≫= py_float_str;
  y_reference ← index preamble_values 9 ≫= py_int_str;
  mret (mkPreamble points x_increment x_origin y_increment y_origin y_reference).

(** Lines 41-54, the body of the [try] up to the payload: the block
    header is read, checked and decoded, then the payload is read. *)
Definition read_block : io T (list byte) :=
  header ← inst_read_raw 11;
  if negb (bytes_eqb (slice 0 1 header) [x23]) then lift (Raise ValueError)
  else
    num_digits ← lift (py_int_bytes (slice 1 2 header));
    data_length_str ← lift (decode_utf8 (slice 2 (2 + Z.to_nat num_digits) header));
    data_length ← lift (py_int_str data_length_str);
    inst_read_raw data_length.

(** Lines 64-71 *)
Definition preamble_dict (P : Preamble F) : gmap string (scalar F) :=
  <["points" := PyInt (points P)]>
  (<["x_increment" := PyFloat (x_increment P)]>
  (<["x_origin" := PyFloat (x_origin P)]>
  (<["y_increment" := PyFloat (y_increment P)]>
  (<["y_origin" := PyFloat (y_origin P)]>
  (<["y_reference" := PyInt (y_reference P)]> ∅))))).

(** [osc.inst.timeout], read and assigned. *)
Definition get_timeout : io (RigolInstrument T) Z :=
  on_inst (λ i, (Ok (inst_timeout i), i)).

Definition set_timeout (z : Z) (osc : RigolInstrument T) : RigolInstrument T :=
  mkRigolInstrument (verbose osc) (inst_set_timeout z (inst osc))
                    (idn osc) (instrument_type osc).

(** The whole function.  The calls to [time.sleep] and the [verbose]
    prints are left out: they change neither the session nor the result. *)
Definition capture_waveform (channel : string)
  : io (RigolInstrument T) (list F * list F * gmap string (scalar F)) :=
  write (":WAV:SOUR " +:+ channel);;
  write ":WAV:MODE NORM";;
  write ":WAV:FORM BYTE";;
  preamble ← query ":WAV:PRE?";
  P ← lift (parse_preamble preamble);
  write ":WAV:DATA?";;
  original_timeout ← get_timeout;
  (λ osc, (Ok (), set_timeout 30000 osc));;
  try_finally
    (raw_bytes ← on_inst read_block;
     let '(time_axis, y_data) := calibrate raw_bytes P in
     mret (time_axis, y_data, preamble_dict P))
    (set_timeout original_timeout).

End Capture.

(** ** Rigol/DS1104ZPLUS.py: save_waveform_capture, load_waveform_capture

    The two libraries the functions store through are modelled by what
    they keep.  An [.npz] archive keeps named arrays as they are.  A JSON
    text keeps null, booleans, integers, floats (written with [repr],
    which reads back to the same binary64 value) and strings as they are,
    writes tuples and lists alike as arrays, and an object as its members
    in order; reading an object inserts the members one by one into a
    dictionary.  The values are those the program stores: scalars, and
    tuples, lists and dictionaries of scalars. *)

Inductive pyval (F : Type) : Type :=
| PScalar (v : scalar F)
| PTuple (items : list (scalar F))
| PList (items : list (scalar F))
| PDict (d : gmap string (scalar F)).
Arguments PScalar {F} v.
Arguments PTuple {F} items.
Arguments PList {F} items.
Arguments PDict {F} d.

Inductive jsonval (F : Type) : Type :=
| JScalar (v : scalar F)
| JArray (items : list (scalar F))
| JObject (members : list (string * scalar F)).
Arguments JScalar {F} v.
Arguments JArray {F} items.
Arguments JObject {F} members.

Inductive file (F : Type) : Type :=
| NpzArchive (arrays : gmap string (list F))
| JsonText (members : list (string * jsonval F))
| OtherFile (content : list byte).
Arguments NpzArchive {F} arrays.
Arguments JsonText {F} members.
Arguments OtherFile {F} content.

(** pathlib is outside the repository: [with_suffix] is taken as given. *)
Class PathLib := {
  with_suffix : string → string → result string;
}.

Class PathLibLaws `{PathLib} : Prop := {
  suffixes_differ : ∀ base a b,
    with_suffix base ".npz" = Ok a → with_suffix base ".json" = Ok b → a ≠ b;
}.

(** What [load_waveform_capture] returns. *)
Record Loaded (F : Type) := mkLoaded {
  time_array : list F;
  voltage_array : list F;
  preamble : pyval F;
  metadata : pyval F;
  num_samples : pyval F;
  voltage_range_v : pyval F;
  time_range_ms : pyval F;
}.
Arguments mkLoaded {F}.
Arguments time_array {F}.
Arguments voltage_array {F}.
Arguments preamble {F}.
Arguments metadata {F}.
Arguments num_samples {F}.
Arguments voltage_range_v {F}.
Arguments time_range_ms {F}.

Definition newline : string := String (Ascii.ascii_of_nat 10) EmptyString.

Section Persistence.
Context {F : Type} `{Numeric F} `{PathLib}.

Definition dict_of_members {V} (members : list (string * V)) : gmap string V :=
  fold_left (λ d kv, <[kv.1 := kv.2]> d) members ∅.

Definition json_encode (v : pyval F) : jsonval F :=
  match v with
  | PScalar x => JScalar x
  | PTuple items => JArray items
  | PList items => JArray items
  | PDict d => JObject (map_to_list d)
  end.

Definition json_decode (j : jsonval F) : pyval F :=
  match j with
  | JScalar x => PScalar x
  | JArray items => PList items
  | JObject members => PDict (dict_of_members members)
  end.

(** [json.dump(data, f)] and [json.load(f)] on an open file *)
Definition json_dump (path : string) (data : gmap string (pyval F))
  : io (gmap string (file F)) unit := λ fs,
  (Ok (), <[path := JsonText (prod_map id json_encode <$> map_to_list data)]> fs).

Definition json_load (path : string) : io (gmap string (file F)) (gmap string (pyval F)) := λ fs,
  match fs !! path with
  | Some (JsonText members) =>
      (Ok (dict_of_members (prod_map id json_decode <$> members)), fs)
  | Some _ => (Raise ValueError, fs)
  | None => (Raise (FileNotFoundError path), fs)
  end.

(** [np.savez_compressed(path, time_array=..., voltage_array=...)] *)
Definition np_savez_compressed (path : string) (time_array voltage_array : list F)
  : io (gmap string (file F)) unit := λ fs,
  (Ok (), <[path := NpzArchive (<["time_array" := time_array]>
                                 (<["voltage_array" := voltage_array]> ∅))]> fs).

(** [np.load(path)] *)
Definition np_load (path : string) : io (gmap string (file F)) (gmap string (list F)) := λ fs,
  match fs !! path with
  | Some (NpzArchive arrays) => (Ok arrays, fs)
  | Some _ => (Raise ValueError, fs)
  | None => (Raise (FileNotFoundError path), fs)
  end.

(** [d[key]] *)
Definition getitem {V} (d : gmap string V) (key : string) : result V :=
  or_raise (KeyError key) (d !! key).

(** [path.exists()] *)
Definition path_exists (path : string) (fs : gmap string (file F)) : bool :=
  bool_decide (is_Some (fs !! path)).

(** [np.min(a)] and [np.max(a)] of a non-empty array [x :: xs]. *)
Definition np_min (x : F) (xs : list F) : F := fold_left nmin xs x.
Definition np_max (x : F) (xs : list F) : F := fold_left nmax xs x.

(** The [(min, max) if len(a) > 0 else (0, 0)] of lines 124 and 125. *)
Definition range_items (a : list F) : list (scalar F) :=
  match a with
  | x :: xs => [PyFloat (np_min x xs); PyFloat (np_max x xs)]
  | [] => [PyInt 0; PyInt 0]
  end.

Definition value_range (a : list F) : pyval F := PTuple (range_items a).

(** Lines 120-126: the dictionary written to the sidecar. *)
Definition json_data (time_array voltage_array : list F)
    (preamble : gmap string (scalar F))
    (metadata : option (gmap string (scalar F))) : gmap string (pyval F) :=
  <["preamble" := PDict preamble]>
  (<["metadata" := PDict (default ∅ metadata)]>
  (<["num_samples" := PScalar (PyInt (Z.of_nat (length voltage_array)))]>
  (<["time_range_ms" := value_range time_array]>
  (<["voltage_range_v" := value_range voltage_array]> ∅)))).

(** [base = filepath.with_suffix(''); base.with_suffix('.npz');
    base.with_suffix('.json')] *)
Definition derived_paths (filepath : string) : result (string * string) :=
  base ← with_suffix filepath "";
  npz_path ← with_suffix base ".npz";
  json_path ← with_suffix base ".json";
  mret (npz_path, json_path).

(** The store keeps files by path, so the [mkdir] of the parent directory
    has nothing to do; the prints are left out. *)
Definition save_waveform_capture (filepath : string)
    (time_array voltage_array : list F) (preamble : gmap string (scalar F))
    (metadata : option (gmap string (scalar F)))
  : io (gmap string (file F)) (gmap string string) :=
  '(npz_path, json_path) ← lift (derived_paths filepath);
  np_savez_compressed npz_path time_array voltage_array;;
  json_dump json_path (json_data time_array voltage_array preamble metadata);;
  mret (<["npz_path" := npz_path]> (<["json_path" := json_path]> ∅)).

Definition not_found_message (npz_path json_path : string) : string :=
  "Waveform files not found. Looking for:" +:+ newline +:+ "  " +:+ npz_path
    +:+ newline +:+ "  " +:+ json_path.

Definition load_waveform_capture (filepath : string)
  : io (gmap string (file F)) (Loaded F) :=
  '(npz_path, json_path) ← lift (derived_paths filepath);
  npz_exists ← (λ fs, (Ok (path_exists npz_path fs), fs));
  json_exists ← (λ fs, (Ok (path_exists json_path fs), fs));
  if negb npz_exists || negb json_exists
  then lift (Raise (FileNotFoundError (not_found_message npz_path json_path)))
  else
    data ← np_load npz_path;
    time_array ← lift (getitem data "time_array");
    voltage_array ← lift (getitem data "voltage_array");
    json_data ← json_load json_path;
    preamble ← lift (getitem json_data "preamble");
    let metadata := default (PDict ∅) (json_data !! "metadata") in
    num_samples ← lift (getitem json_data "num_samples");
    voltage_range_v ← lift (getitem json_data "voltage_range_v");
    time_range_ms ← lift (getitem json_data "time_range_ms");
    mret (mkLoaded time_array voltage_array preamble metadata num_samples
                   voltage_range_v time_range_ms).

End Persistence.

(** ** Reference instances, for running the embedding on examples *)

Module Decimal.

(** A plain decimal reader into the rationals: sign, digits with an
    optional fraction, optional exponent. *)
Fixpoint leading_digits (l : list byte) (acc : Z) (count : nat) : Z * nat * list byte :=
  match l with
  | b :: l' =>
      if is_digit b then leading_digits l' (acc * 10 + digit_value b) (S count)
      else (acc, count, l)
  | [] => (acc, count, [])
  end.

Definition signed (l : list byte) : bool * list byte :=
  match l with
  | b :: rest =>
      if code b =? 45 then (true, rest)
      else if code b =? 43 then (false, rest)
      else (false, l)
  | [] => (false, [])
  end.

Definition scale (m e : Z) : Qc := Q2Qc (inject_Z m * Qpower (10 # 1) e).

Definition read (s : string) : option Qc :=
  let '(negative, l1) := signed (strip_bytes is_space_str (list_byte_of_string s)) in
  let '(whole, n1, l2) := leading_digits l1 0 0 in
  let '(m, n2, l3) :=
    match l2 with
    | b :: rest => if code b =? 46 then leading_digits rest whole 0 else (whole, 0%nat, l2)
    | [] => (whole, 0%nat, [])
    end in
  if (n1 + n2 =? 0)%nat then None
  else
    let mantissa := if negative : bool then - m else m in
    match l3 with
    | [] => Some (scale mantissa (- Z.of_nat n2))
    | b :: rest =>
        if (code b =? 101) || (code b =? 69) then
          let '(eneg, digits) := signed rest in
          match leading_digits digits 0 0 with
          | (e, S _, []) =>
              Some (scale mantissa ((if eneg : bool then - e else e) - Z.of_nat n2))
          | _ => None
          end
        else None
    end.

#[global] Instance builtins : Builtins Qc := {|
  py_float := read;
  int_beyond_ascii := λ _, None;
  decode_beyond_ascii := λ _, None;
|}.

End Decimal.

Module Posix.

(** [with_suffix] on a path string that is already in pathlib's normal
    form: the name is what follows the last slash, its suffix starts at
    its last dot when that dot is neither its first nor its last
    character. *)
Fixpoint before_slash (r : list byte) : list byte :=
  match r with
  | b :: r' => if code b =? 47 then [] else b :: before_slash r'
  | [] => []
  end.

Definition split_name (l : list byte) : list byte * list byte :=
  let name_rev := before_slash (rev l) in
  (rev (drop (length name_rev) (rev l)), rev name_rev).

Fixpoint stem_rev (seen : list byte) (r : list byte) : option (list byte) :=
  match r with
  | [] => None
  | b :: r' =>
      if code b =? 46
      then match seen, r' with
           | _ :: _, _ :: _ => Some r'
           | _, _ => None
           end
      else stem_rev (b :: seen) r'
  end.

Definition stem (name : list byte) : list byte :=
  match stem_rev [] (rev name) with
  | Some r => rev r
  | None => name
  end.

Definition with_suffix_bytes (p suffix : list byte) : result (list byte) :=
  let '(dir, name) := split_name p in
  match name, suffix with
  | [], _ => Raise ValueError
  | _, [] => Ok (dir ++ stem name)
  | _, d :: _ :: _ =>
      if code d =? 46 then Ok (dir ++ stem name ++ suffix) else Raise ValueError
  | _, _ => Raise ValueError
  end.

#[global] Instance pathlib : PathLib := {|
  with_suffix := λ p suffix,
    string_of_list_byte <$>
      with_suffix_bytes (list_byte_of_string p) (list_byte_of_string suffix);
|}.

End Posix.

(** Adding the constant [k] to every raw byte (used only to state the
    shift property; the program has no such operation). *)
Definition byte_of_Z (z : Z) : byte :=
  match Byte.of_N (Z.to_N z) with Some b => b | None => x00 end.

Definition shift_bytes (k : Z) (B : list byte) : list byte :=
  (λ b, byte_of_Z (Z.of_N (Byte.to_N b) + k)) <$> B.

Definition in_uint8 (z : Z) : Prop := 0 ≤ z ≤ 255.

(** ** Example data *)

Module Example.

(** A [:WAV:PRE?] reply in the oscilloscope's format: format, type,
    points, count, xincrement, xorigin, xreference, yincrement, yorigin,
    yreference. *)
Definition preamble_reply : string :=
  "0,0,4,1,1.000000e-06,-6.000000e-04,0,4.132813e-02,0,127".

(** A session about to answer the preamble query with [reply] and then
    to deliver the bytes [pending]. *)
Definition session_replying (reply pending : string) : Fake.session :=
  Fake.mk 5000 "utf-8" true [reply] (list_byte_of_string pending) [].

Definition session (pending : string) : Fake.session :=
  session_replying preamble_reply pending.

Definition scope_on (s : Fake.session) : RigolInstrument Fake.session :=
  mkRigolInstrument 1 s
    "RIGOL TECHNOLOGIES,DS1104Z Plus,DS1ZA000000001,00.04.04.SP4" "oscilloscope".

Definition scope (pending : string) : RigolInstrument Fake.session :=
  scope_on (session pending).

(** A session whose link is down: every transfer raises [VisaIOError]. *)
Definition dead_session : Fake.session :=
  Fake.mk 2000 "ascii" false [] [] [].

(** A pair of artifacts that disagree: one sample stored, five recorded. *)
Definition mismatched_store : gmap string (file float) :=
  <["cap.npz" := NpzArchive (<["time_array" := [0%float]]>
                             (<["voltage_array" := [1%float]]> ∅))]>
  (<["cap.json" := JsonText [("preamble", JObject []);
                             ("metadata", JObject []);
                             ("num_samples", JScalar (PyInt 5));
                             ("time_range_ms", JArray [PyInt 0; PyInt 0]);
                             ("voltage_range_v", JArray [PyInt 0; PyInt 0])]]> ∅).

(** A sidecar without its array store. *)
Definition sidecar_only : gmap string (file float) :=
  <["cap.json" := JsonText [("preamble", JObject []);
                            ("num_samples", JScalar (PyInt 0))]]> ∅.

End Example.

(** A bench of scripted instruments, opened by resource name. *)
Module Bench.

Definition answering (idn : string) : Fake.session :=
  Fake.mk 2000 "ascii" true [idn] [] [].

Definition open_resource (name : string) : result Fake.session :=
  if contains "::GEN" name
  then Ok (answering "Rigol Technologies,DG1022Z,DG1ZA000000001,03.01.12")
  else if contains "::OSC" name
  then Ok (answering "RIGOL TECHNOLOGIES,DS1104Z Plus,DS1ZA000000001,00.04.04.SP4")
  else if contains "::DEAD" name
  then Raise VisaIOError
  else Ok (answering "ACME,Multimeter 3000").

End Bench.

(** ** Vocabulary of the properties *)

(** A statement that leaves the session's timeout as it found it,
    whether it returns or raises. *)
Definition keeps_timeout {T} `{Transport T} {A}
    (m : io (RigolInstrument T) A) : Prop :=
  ∀ osc, inst_timeout (inst (m osc).2) = inst_timeout (inst osc).

(** The identification query fails in the transport: the write of
    [*IDN?] raises [VisaIOError], or the write goes through and the read
    of the answer raises it. *)
Definition idn_query_fails {T} `{Transport T} (i : T) : Prop :=
  (inst_write "*IDN?" i).1 = Raise VisaIOError ∨
  ∃ i', inst_write "*IDN?" i = (Ok (), i') ∧ (inst_read i').1 = Raise VisaIOError.

(** Field [i] of a preamble reply (empty when the reply has no such
    field). *)
Definition preamble_field (reply : string) (i : nat) : string :=
  default EmptyString (split "," reply !! i).

(** The exceptions by which the parsing statements reject a reply: a
    missing field is an [IndexError], a field that does not convert a
    [ValueError]. *)
Definition MalformedPreamble (e : exn) : Prop :=
  e = IndexError ∨ e = ValueError.

(** The number a run of ASCII digits writes in base ten. *)
Definition decimal (digits : list byte) : Z :=
  fold_left (λ acc b, acc * 10 + digit_value b) digits 0.

(** A block header [#], a digit [d], then [d > 0] ASCII digits. *)
Definition well_formed_header (d : byte) (digits : list byte) : Prop :=
  is_digit d = true ∧
  digit_value d = Z.of_nat (length digits) ∧
  (0 < length digits)%nat ∧
  forallb is_digit digits = true.

(** A value as it comes back from the sidecar: a tuple comes back as a
    list, everything else as it was. *)
Definition as_stored {F} (v : pyval F) : pyval F :=
  match v with
  | PTuple items => PList items
  | _ => v
  end.

(** The sum of a sequence of rationals. *)
Definition exact_total (l : list Qc) : Qc := fold_right Qcplus (Q2Qc 0) l.

(** ASCII lower-casing, to state that classification ignores case. *)
Definition lower_byte (b : byte) : byte :=
  if (65 <=? code b) && (code b <=? 90)
  then match Byte.of_N (Byte.to_N b + 32) with Some l => l | None => b end
  else b.

Definition lower (s : string) : string :=
  string_of_list_byte (lower_byte <$> list_byte_of_string s).

(** * Properties *)

Section CalibrationFacts.
Context {F : Type} `{Numeric F}.

Lemma length_frombuffer_uint8 (B : list byte) :
  length (frombuffer_uint8 B) = length B.
Proof. apply length_fmap. Qed.

Lemma frombuffer_uint8_lookup (B : list byte) (i : nat) (b : byte) :
  B !! i = Some b → frombuffer_uint8 B !! i = Some (Z.of_N (Byte.to_N b)).
Proof. intros Hb. unfold frombuffer_uint8. by rewrite list_lookup_fmap, Hb. Qed.

Lemma length_np_arange n : length (np_arange n) = n.
Proof. unfold np_arange. by rewrite length_fmap, length_seq. Qed.

Lemma np_arange_lookup n i : (i < n)%nat → np_arange n !! i = Some (Z.of_nat i).
Proof.
  intros Hi. unfold np_arange.
  rewrite list_lookup_fmap, lookup_seq_lt by done. done.
Qed.


End CalibrationFacts.


(** ** Running a sequence of statements *)

Lemma io_bind_ok {T A B} (m : io T A) (f : A → io T B) t a t' :
  m t = (Ok a, t') → (m ≫= f) t = f a t'.
Proof. intros Hm. unfold mbind, io_bind. by rewrite Hm. Qed.

Lemma io_bind_raise {T A B} (m : io T A) (f : A → io T B) t e t' :
  m t = (Raise e, t') → (m ≫= f) t = (Raise e, t').
Proof. intros Hm. unfold mbind, io_bind. by rewrite Hm. Qed.

Lemma io_bind_lift {T A B} (r : result A) (f : A → io T B) t :
  (lift r ≫= f) t = match r with Ok a => f a t | Raise e => (Raise e, t) end.
Proof. unfold mbind, io_bind, lift. by destruct r. Qed.

(** ** The timeout around the binary transfer *)

Section Timeout.
Context {F : Type} `{Numeric F} `{Builtins F} {T : Type} `{TransportLaws T}.

Lemma keeps_timeout_bind {A B} (m : io (RigolInstrument T) A)
    (f : A → io (RigolInstrument T) B) :
  keeps_timeout m → (∀ a, keeps_timeout (f a)) → keeps_timeout (m ≫= f).
Proof.
  intros Hm Hf osc. specialize (Hm osc).
  destruct (m osc) as [[a|e] osc'] eqn:E; cbn [snd] in Hm.
  - rewrite (io_bind_ok _ _ _ _ _ E). by rewrite Hf.
  - by rewrite (io_bind_raise _ _ _ _ _ E).
Qed.

Lemma keeps_timeout_lift {A} (r : result A) : keeps_timeout (lift r).
Proof. by intros osc. Qed.

Lemma keeps_timeout_on_inst {A} (m : io T A) :
  (∀ i, inst_timeout (m i).2 = inst_timeout i) → keeps_timeout (on_inst m).
Proof.
  intros Hm osc. unfold on_inst. specialize (Hm (inst osc)).
  by destruct (m (inst osc)) as [r i].
Qed.

Lemma keeps_timeout_write command : keeps_timeout (write command).
Proof. apply keeps_timeout_on_inst, timeout_write. Qed.

Lemma keeps_timeout_query command : keeps_timeout (query command).
Proof. apply keeps_timeout_on_inst, timeout_query. Qed.

(** Lines 36-77: once the timeout is raised, every way out of the [try]
    goes through the [finally]. *)
Lemma finally_sets_timeout {A} (body : io (RigolInstrument T) A) (z : Z) osc :
  inst_timeout (inst (((λ o, (Ok (), set_timeout 30000 o)) ;;
                       try_finally body (set_timeout z)) osc).2) = z.
Proof.
  unfold mbind, io_bind, try_finally.
  destruct (body (set_timeout 30000 osc)) as [r osc'].
  cbn [snd set_timeout inst]. apply timeout_set.
Qed.

(** C5. On every way out of capture_waveform, by return or by any
    exception (a failed write or query, a malformed preamble, a bad block
    header, a failed read), the session's timeout is the value it had when
    the capture began: the 30000 ms set for the binary transfer never
    outlives the call. *)
Theorem capture_waveform_restores_timeout (channel : string)
    (osc : RigolInstrument T) :
  inst_timeout (inst (capture_waveform (F:=F) channel osc).2)
    = inst_timeout (inst osc).
Proof.
  revert osc. change (keeps_timeout (capture_waveform (F:=F) channel)).
  unfold capture_waveform.
  repeat (apply keeps_timeout_bind;
          [first [apply keeps_timeout_write | apply keeps_timeout_query
                 | apply keeps_timeout_lift] | intros ?]).
  intros osc. unfold get_timeout at 1.
  erewrite io_bind_ok; [|by unfold on_inst].
  cbn [inst]. destruct osc as [v i n ty]. cbn [inst verbose idn instrument_type].
  apply (finally_sets_timeout _ (inst_timeout i)
           (mkRigolInstrument v i n ty)).
Qed.

End Timeout.

(** The scripted session obeys the laws of a session. *)
#[global] Instance fake_laws : TransportLaws Fake.session.
Proof.
  split.
  - done.
  - intros c s. cbn. unfold Fake.write. by destruct (Fake.link_up s).
  - intros s. cbn. unfold Fake.read.
    destruct (Fake.link_up s); [|done]. by destruct (Fake.replies s).
  - intros c s. cbn. unfold Fake.query, Fake.write, Fake.read, mbind, io_bind.
    destruct (Fake.link_up s); [|done]. cbn.
    by destruct (Fake.replies s).
  - intros n s. cbn. unfold Fake.read_raw. by destruct (Fake.link_up s).
Qed.

Lemma capture_waveform_restores_timeout_witness :
  Fake.timeout (inst (capture_waveform (F:=Qc) "CHAN1"
                        (Example.scope "#9000000004ABCD")).2) = 5000.
Proof.
  exact (capture_waveform_restores_timeout (F:=Qc) (H2:=fake_laws) "CHAN1"
           (Example.scope "#9000000004ABCD")).
Defined.

(** The ways out of capture_waveform on the scripted session, each with
    the timeout back at its 5000 ms: a capture that returns, a link that
    is down, a preamble with too few fields, a preamble field that is not
    a number, a block that does not start with [#], a digit count that is
    not a digit. *)
Lemma capture_waveform_exits :
  let run (s : Fake.session) :=
    let out := capture_waveform (F:=Qc) "CHAN1" (Example.scope_on s) in
    (match out.1 with Ok _ => None | Raise e => Some e end,
     Fake.timeout (inst out.2)) in
  run (Example.session "#9000000004ABCD") = (None, 5000) ∧
  run (Fake.mk 5000 "utf-8" false [] [] []) = (Some VisaIOError, 5000) ∧
  run (Example.session_replying "0,0,4" "#9000000004ABCD") = (Some IndexError, 5000) ∧
  run (Example.session_replying "0,0,many,1,1e-6,0,0,1e-2,0,127" "#9000000004ABCD")
    = (Some ValueError, 5000) ∧
  run (Example.session "9000000004ABCD") = (Some ValueError, 5000) ∧
  run (Example.session "#x000000004ABCD") = (Some ValueError, 5000).
Proof. repeat split; vm_compute; reflexivity. Qed.

(** ** Identification *)

Section Identification.
Context {T : Type} `{Transport T}.

Lemma get_idn_absorbs (verbose : Z) (i : T) :
  idn_query_fails i → (get_idn verbose i).1 = Ok "Unknown"%string.
Proof.
  intros [Hw | (i' & Hw & Hr)]; unfold get_idn.
  - destruct (inst_write "*IDN?" i) as [r i1] eqn:E. cbn [fst] in Hw. subst r.
    by rewrite (io_bind_raise _ _ _ _ _ E).
  - rewrite (io_bind_ok _ _ _ _ _ Hw).
    destruct (inst_read i') as [r i2] eqn:E. cbn [fst] in Hr. subst r.
    by rewrite (io_bind_raise _ _ _ _ _ E).
Qed.

(** C10. When the identification query raises a transport error
    (VisaIOError on the write of *IDN? or on the read of its answer),
    get_idn does not propagate it but returns the string "Unknown";
    classify_instrument maps that string to "unknown"; and the constructor
    still returns an object, whose idn is "Unknown" and whose type is
    "unknown". *)
Theorem idn_failure_is_absorbed (verbose : Z) :
  (∀ i : T, idn_query_fails i → (get_idn verbose i).1 = Ok "Unknown"%string) ∧
  classify_instrument "Unknown" = "unknown"%string ∧
  (∀ (open_resource : string → result T) (resource_name : string) (opened : T),
     open_resource resource_name = Ok opened →
     idn_query_fails (inst_set_encoding "utf-8" (inst_set_timeout 5000 opened)) →
     ∃ self, RigolInstrument_init open_resource resource_name verbose = Ok self
             ∧ idn self = "Unknown"%string
             ∧ instrument_type self = "unknown"%string).
Proof.
  split; [apply get_idn_absorbs|]. split; [reflexivity|].
  intros open_resource resource_name opened Hopen Hfail.
  apply (get_idn_absorbs verbose) in Hfail.
  unfold RigolInstrument_init. rewrite Hopen. cbn.
  destruct (get_idn verbose _) as [r i'] eqn:E. cbn [fst] in Hfail. subst r.
  eexists. split; [reflexivity|]. by split.
Qed.

End Identification.

Lemma idn_failure_is_absorbed_witness :
  ∃ self, RigolInstrument_init (λ _, Ok Example.dead_session) "USB0::0x1AB1" 1 = Ok self
          ∧ idn self = "Unknown"%string ∧ instrument_type self = "unknown"%string.
Proof.
  apply (idn_failure_is_absorbed (T:=Fake.session) 1) with (opened := Example.dead_session).
  - reflexivity.
  - left. reflexivity.
Defined.

(** ** The preamble *)

Section PreambleFacts.
Context {F : Type} `{Numeric F} `{Builtins F}.

Lemma or_raise_inv {A} (e e' : exn) (o : option A) :
  or_raise e o = Raise e' → e' = e.
Proof. destruct o; cbn; congruence. Qed.

Lemma py_int_str_raises (s : string) (e : exn) :
  py_int_str s = Raise e → e = ValueError.
Proof. apply or_raise_inv. Qed.

Lemma py_float_str_raises (s : string) (e : exn) :
  py_float_str s = Raise e → e = ValueError.
Proof. apply or_raise_inv. Qed.

Lemma convert_field {A B} (conv : string → result A) (fields : list string)
    (i : nat) (k : A → result B) :
  (index fields i ≫= conv) ≫= k =
    match fields !! i with
    | None => Raise IndexError
    | Some s => match conv s with Ok a => k a | Raise e => Raise e end
    end.
Proof. unfold index. by destruct (fields !! i). Qed.

Lemma preamble_field_lookup (reply : string) (i : nat) (s : string) :
  split "," reply !! i = Some s → preamble_field reply i = s.
Proof. intros Hs. unfold preamble_field. by rewrite Hs. Qed.

(** What an outcome of the parser says about the reply. *)
Lemma parse_preamble_cases (reply : string) :
  match parse_preamble reply with
  | Ok P =>
      (10 ≤ length (split "," reply))%nat ∧
      py_int_str (preamble_field reply 2) = Ok (points P) ∧
      py_float_str (preamble_field reply 4) = Ok (x_increment P) ∧
      py_float_str (preamble_field reply 5) = Ok (x_origin P) ∧
      py_float_str (preamble_field reply 7) = Ok (y_increment P) ∧
      py_float_str (preamble_field reply 8) = Ok (y_origin P) ∧
      py_int_str (preamble_field reply 9) = Ok (y_reference P)
  | Raise e => MalformedPreamble e
  end.
Proof.
  unfold parse_preamble.
  do 6 (rewrite convert_field;
        lazymatch goal with
        | |- match match split "," reply !! ?i with _ => _ end with _ => _ end =>
            destruct (split "," reply !! i) eqn:?; [|by left]
        end;
        lazymatch goal with
        | |- match match ?c with _ => _ end with _ => _ end =>
            destruct c eqn:?; [|right; eauto using py_int_str_raises, py_float_str_raises]
        end).
  cbn.
  repeat split;
    try (erewrite preamble_field_lookup by eassumption; assumption).
  match goal with
  | E : split "," reply !! 9%nat = Some _ |- _ => apply lookup_lt_Some in E; lia
  end.
Qed.


End PreambleFacts.


(** ** The block reader *)

Lemma is_digit_code (b : byte) : is_digit b = true → 48 ≤ code b ≤ 57.
Proof. unfold is_digit. lia. Qed.

Lemma digit_not_space (b : byte) : is_digit b = true → is_space_str b = false.
Proof.
  intros Hb%is_digit_code. unfold is_space_str, is_space_bytes. lia.
Qed.

Lemma digit_is_ascii (b : byte) : is_digit b = true → is_ascii b = true.
Proof. intros Hb%is_digit_code. unfold is_ascii. lia. Qed.

Lemma digits_ascii_only (digits : list byte) :
  forallb is_digit digits = true → ascii_only digits = true.
Proof.
  unfold ascii_only. rewrite !forallb_forall.
  intros Hd b Hb. by apply digit_is_ascii, Hd.
Qed.

Lemma lstrip_nonspace (space : byte → bool) (b : byte) (l : list byte) :
  space b = false → lstrip space (b :: l) = b :: l.
Proof. intros Hb. cbn. by rewrite Hb. Qed.

Lemma strip_bytes_digits (digits : list byte) :
  forallb is_digit digits = true → strip_bytes is_space_str digits = digits.
Proof.
  intros Hd. unfold strip_bytes.
  assert (Hl : ∀ l, forallb is_digit l = true → lstrip is_space_str l = l).
  { intros [|b l] Hl; [done|]. apply lstrip_nonspace, digit_not_space.
    cbn in Hl. by apply andb_prop in Hl as [? _]. }
  rewrite (Hl digits Hd), Hl, rev_involutive; [done|].
  rewrite forallb_forall in *. intros b Hb. by apply Hd, in_rev.
Qed.

Lemma int_digits_all_digits (digits : list byte) (acc : Z) :
  forallb is_digit digits = true →
  int_digits acc digits
    = Some (fold_left (λ acc b, acc * 10 + digit_value b) digits acc).
Proof.
  revert acc. induction digits as [|b l IH]; [done|].
  intros acc [Hb Hl]%andb_prop. cbn. rewrite Hb. by apply IH.
Qed.

Lemma int_ascii_digits (digits : list byte) :
  (0 < length digits)%nat → forallb is_digit digits = true →
  int_ascii is_space_str digits = Some (decimal digits).
Proof.
  intros Hn Hd. unfold int_ascii. rewrite (strip_bytes_digits _ Hd).
  destruct digits as [|b l]; [cbn in Hn; lia|].
  cbn in Hd. apply andb_prop in Hd as [Hb Hl].
  pose proof (is_digit_code _ Hb) as Hc.
  destruct (code b =? 45) eqn:E1; [lia|].
  destruct (code b =? 43) eqn:E2; [lia|].
  rewrite Hb, (int_digits_all_digits _ _ Hl). reflexivity.
Qed.

Lemma py_int_bytes_digit (d : byte) :
  is_digit d = true → py_int_bytes [d] = Ok (digit_value d).
Proof. destruct d; intros Hd; try discriminate Hd; reflexivity. Qed.

Section BlockReader.
Context {F : Type} `{Builtins F} {T : Type} `{Transport T}.

Lemma py_int_str_digits (digits : list byte) :
  (0 < length digits ≤ 9)%nat → forallb is_digit digits = true →
  py_int_str (string_of_list_byte digits) = Ok (decimal digits).
Proof.
  intros Hn Hd. unfold py_int_str.
  rewrite list_byte_of_string_of_list_byte, (digits_ascii_only _ Hd).
  replace (Nat.leb (length digits) 4300) with true
    by (symmetry; apply Nat.leb_le; lia).
  cbn [andb]. rewrite int_ascii_digits; [done|lia|done].
Qed.

(** The header decoded: after a read that returned a well-formed header,
    what remains of the block reader is one read of the declared
    length. *)
Lemma read_block_decodes (t t1 : T) (d : byte) (digits rest : list byte) :
  inst_read_raw 11 t = (Ok (x23 :: d :: digits ++ rest), t1) →
  well_formed_header d digits →
  read_block (F:=F) t = inst_read_raw (decimal digits) t1.
Proof.
  intros Hread (Hd & Hlen & Hpos & Hdigits). unfold read_block.
  rewrite (io_bind_ok _ _ _ _ _ Hread).
  change (slice 0 1 (x23 :: d :: digits ++ rest)) with [x23].
  change (slice 1 2 (x23 :: d :: digits ++ rest)) with [d].
  change (bytes_eqb [x23] [x23]) with true. cbn [negb].
  rewrite io_bind_lift, (py_int_bytes_digit _ Hd), Hlen, Nat2Z.id.
  replace (slice 2 (2 + length digits) (x23 :: d :: digits ++ rest))
    with digits.
  2:{ unfold slice. replace (2 + length digits - 2)%nat with (length digits) by lia.
      change (drop 2 (x23 :: d :: digits ++ rest)) with (digits ++ rest).
      by rewrite take_app_length. }
  unfold decode_utf8. rewrite (digits_ascii_only _ Hdigits), io_bind_lift.
  rewrite io_bind_lift, py_int_str_digits; [done| |done].
  pose proof (is_digit_code _ Hd). unfold digit_value in Hlen. lia.
Qed.

End BlockReader.

Section BlockReaderClaims.
Context {F : Type} `{Builtins F} {T : Type} `{Transport T}.

(** C3, as the code has it.  After a well-formed header declaring the
    payload length N, the block reader makes one further read, distinct
    from the header read, asking for exactly N bytes, and its outcome is
    the outcome of that read, unmodified: the bytes delivered when the
    read returns (N of them when the transport supplies N, fewer when it
    delivers fewer: the length is not checked), the transport's exception
    when the read raises. *)
Theorem read_block_payload_is_second_read (t t1 : T) (d : byte)
    (digits rest : list byte) :
  inst_read_raw 11 t = (Ok (x23 :: d :: digits ++ rest), t1) →
  well_formed_header d digits →
  read_block (F:=F) t = inst_read_raw (decimal digits) t1 ∧
  (∀ payload t2, inst_read_raw (decimal digits) t1 = (Ok payload, t2) →
                 read_block (F:=F) t = (Ok payload, t2)) ∧
  (∀ e t2, inst_read_raw (decimal digits) t1 = (Raise e, t2) →
           read_block (F:=F) t = (Raise e, t2)).
Proof.
  intros Hread Hwf.
  pose proof (read_block_decodes (F:=F) _ _ _ _ _ Hread Hwf) as Heq.
  split; [done|]. split; intros; congruence.
Qed.

End BlockReaderClaims.

Lemma read_block_payload_is_second_read_witness :
  (read_block (F:=Qc) (Example.session "#9000000010ABCDEFGHIJ")).1
    = Ok (list_byte_of_string "ABCDEFGHIJ").
Proof.
  destruct (read_block_payload_is_second_read (F:=Qc)
              (Example.session "#9000000010ABCDEFGHIJ")
              (Fake.mk 5000 "utf-8" true [Example.preamble_reply]
                       (list_byte_of_string "ABCDEFGHIJ") [])
              "9"%byte (list_byte_of_string "000000010") [])
    as [Heq _].
  - reflexivity.
  - repeat split; vm_compute; (reflexivity || lia).
  - rewrite Heq. reflexivity.
Defined.

(** C3, as stated, fails: the header declares 10 bytes, the session
    delivers 4, and the block reader returns those 4 as a success. *)
Lemma short_payload_is_returned :
  let s := Example.session "#9000000010ABCD" in
  ∃ s1 s2,
    inst_read_raw 11 s = (Ok (list_byte_of_string "#9000000010"), s1) ∧
    inst_read_raw 10 s1 = (Ok (list_byte_of_string "ABCD"), s2) ∧
    read_block (F:=Qc) s = (Ok (list_byte_of_string "ABCD"), s2) ∧
    ∃ time_axis y_data preamble,
      (capture_waveform (F:=Qc) "CHAN1" (Example.scope "#9000000010ABCD")).1
        = Ok (time_axis, y_data, preamble)
      ∧ length y_data = 4%nat.
Proof.
  do 2 eexists. repeat split; [reflexivity..|].
  do 3 eexists. split; [vm_compute; reflexivity|reflexivity].
Qed.

(** The block reader on the scripted session, whatever the digit count:
    the header read takes 11 bytes, so of the payload that follows a
    header of [2 + d] bytes the first [9 - d] bytes are taken with it, and
    the payload read starts after them. *)
Lemma fake_read_block (s : Fake.session) (d : byte) (digits payload : list byte) :
  Fake.link_up s = true →
  Fake.rx s = x23 :: d :: digits ++ payload →
  well_formed_header d digits →
  (read_block (F:=Qc) s).1
    = Ok (take (Z.to_nat (decimal digits)) (drop (9 - length digits) payload)).
Proof.
  intros Hup Hrx Hwf.
  assert (Hlen : (length digits ≤ 9)%nat).
  { destruct Hwf as (Hd%is_digit_code & Hlen & _). unfold digit_value in Hlen. lia. }
  rewrite (read_block_decodes (F:=Qc) s
             (Fake.mk (Fake.timeout s) (Fake.encoding s) true (Fake.replies s)
                      (drop 11 (Fake.rx s)) (Fake.sent s))
             d digits (take (9 - length digits) payload)); [|
    |done].
  - cbn. unfold Fake.read_raw. cbn. rewrite Hrx. f_equal. f_equal.
    change (drop 11 (x23 :: d :: digits ++ payload))
      with (drop 9 (digits ++ payload)).
    rewrite drop_app, (drop_ge digits) by lia. done.
  - cbn. unfold Fake.read_raw. rewrite Hup, Hrx. do 2 f_equal.
    change (take (Z.to_nat 11) (x23 :: d :: digits ++ payload))
      with (x23 :: d :: take 9 (digits ++ payload)).
    rewrite take_app, (take_ge digits) by lia. done.
Qed.

(** With the nine digits of the oscilloscope's headers the payload is
    returned whole. *)
Lemma fake_read_block_nine_digits (s : Fake.session) (digits payload : list byte) :
  Fake.link_up s = true →
  Fake.rx s = x23 :: "9"%byte :: digits ++ payload →
  well_formed_header "9"%byte digits →
  Z.of_nat (length payload) = decimal digits →
  (read_block (F:=Qc) s).1 = Ok payload.
Proof.
  intros Hup Hrx Hwf Hn. rewrite (fake_read_block s _ _ _ Hup Hrx Hwf).
  destruct Hwf as (_ & Hlen & _). change (digit_value "9"%byte) with 9 in Hlen.
  replace (9 - length digits)%nat with 0%nat by lia.
  rewrite <- Hn, Nat2Z.id. cbn [drop]. by rewrite take_ge.
Qed.

(** C2, on a header that declares two digits.  The block is
    [#210ABCDEFGHIJ]: a 4-byte header declaring the 10 payload bytes
    [ABCDEFGHIJ].  The block reader reads 11 bytes as the header, taking
    [ABCDEFG] with it, decodes the length 10 from the two declared digits,
    and returns the 3 bytes that are left instead of the payload. *)
Theorem read_block_two_digit_header :
  ∃ s1 s2,
    inst_read_raw 11 (Example.session "#210ABCDEFGHIJ")
      = (Ok (list_byte_of_string "#210ABCDEFG"), s1) ∧
    read_block (F:=Qc) (Example.session "#210ABCDEFGHIJ")
      = (Ok (list_byte_of_string "HIJ"), s2).
Proof. do 2 eexists. split; reflexivity. Qed.

(** ** Calibration under a shift of the raw codes *)

Lemma code_byte_of_Z (z : Z) : in_uint8 z → code (byte_of_Z z) = z.
Proof.
  intros [Hlo Hhi]. unfold code, byte_of_Z.
  destruct (Byte.of_N (Z.to_N z)) as [b|] eqn:E.
  - apply Byte.to_of_N in E. lia.
  - apply Byte.of_N_None_iff in E. lia.
Qed.

Lemma frombuffer_uint8_shift (k : Z) (B : list byte) :
  Forall (λ b, in_uint8 (code b + k)) B →
  frombuffer_uint8 (shift_bytes k B) = (λ z, z + k) <$> frombuffer_uint8 B.
Proof.
  unfold frombuffer_uint8, shift_bytes.
  induction 1 as [|b B Hb HB IH]; [done|].
  rewrite !fmap_cons, IH. f_equal. by apply code_byte_of_Z.
Qed.

Lemma int_sum_shift (k : Z) (a : list Z) :
  int_sum ((λ z, z + k) <$> a) = int_sum a + k * Z.of_nat (length a).
Proof.
  induction a as [|z a IH]; [cbn; lia|].
  rewrite fmap_cons. cbn [int_sum fold_right length] in *.
  fold (int_sum ((λ z, z + k) <$> a)) (int_sum a). lia.
Qed.

Lemma exact_of_Z_add (a b : Z) : Exact.of_Z (a + b) = (Exact.of_Z a + Exact.of_Z b)%Qc.
Proof.
  apply Qc_is_canon. unfold Exact.of_Z. cbn [this Qcplus Q2Qc].
  rewrite !Qred_correct, inject_Z_plus. reflexivity.
Qed.

Lemma exact_of_Z_mul (a b : Z) : Exact.of_Z (a * b) = (Exact.of_Z a * Exact.of_Z b)%Qc.
Proof.
  apply Qc_is_canon. unfold Exact.of_Z. cbn [this Qcmult Q2Qc].
  rewrite !Qred_correct, inject_Z_mult. reflexivity.
Qed.

Lemma exact_of_Z_nonzero (a : Z) : a ≠ 0 → Exact.of_Z a ≠ Q2Qc 0.
Proof.
  intros Ha Heq. apply (f_equal this) in Heq. unfold Exact.of_Z in Heq.
  cbn [this Q2Qc] in Heq.
  assert (Hq : (inject_Z a == 0)%Q).
  { rewrite <- (Qred_correct (inject_Z a)), Heq. reflexivity. }
  unfold Qeq, inject_Z in Hq. cbn in Hq. lia.
Qed.




(** ** Persistence *)

Section SidecarFacts.
Context {F : Type}.

Lemma dict_of_members_fmap {A B} (f : A → B) (members : list (string * A)) :
  dict_of_members (prod_map id f <$> members) = f <$> dict_of_members members.
Proof.
  unfold dict_of_members. rewrite <- (fmap_empty f). generalize (∅ : gmap string A).
  induction members as [|[k x] l IH]; intros acc; [done|].
  rewrite fmap_cons. cbn [fold_left prod_map fst snd id].
  rewrite <- fmap_insert. apply IH.
Qed.

Lemma dict_of_members_to_list {A} (d : gmap string A) :
  dict_of_members (map_to_list d) = d.
Proof.
  unfold dict_of_members.
  rewrite <- (fold_left_rev_right (λ kv d, <[kv.1 := kv.2]> d)).
  change (list_to_map (rev (map_to_list d)) = d).
  rewrite <- (list_to_map_proper (map_to_list d)).
  - apply list_to_map_to_list.
  - apply NoDup_fst_map_to_list.
  - apply Permutation_rev.
Qed.

Lemma json_roundtrip (v : pyval F) : json_decode (json_encode v) = as_stored v.
Proof. destruct v; cbn; [done..|]. by rewrite dict_of_members_to_list. Qed.

Lemma sidecar_roundtrip (data : gmap string (pyval F)) :
  dict_of_members
    (prod_map id json_decode <$> (prod_map id json_encode <$> map_to_list data))
  = as_stored <$> data.
Proof.
  rewrite <- list_fmap_compose.
  rewrite (list_fmap_ext _ (prod_map id (json_decode ∘ json_encode)))
    by (by intros i [k v] _).
  rewrite dict_of_members_fmap, dict_of_members_to_list.
  apply map_fmap_ext. intros k v _. apply json_roundtrip.
Qed.

End SidecarFacts.

Section PersistenceFacts.
Context {F : Type} `{Numeric F} `{PathLibLaws}.

Lemma derived_paths_differ (filepath npz json : string) :
  derived_paths filepath = Ok (npz, json) → npz ≠ json.
Proof.
  unfold derived_paths, mbind, result_bind.
  destruct (with_suffix filepath "") as [base|]; [|done].
  destruct (with_suffix base ".npz") as [a|] eqn:Ea; [|done].
  destruct (with_suffix base ".json") as [b|] eqn:Eb; [|done].
  intros [= <- <-]. eapply suffixes_differ; eauto.
Qed.

Lemma path_exists_true (path : string) (fs : gmap string (file F)) (f : file F) :
  fs !! path = Some f → path_exists path fs = true.
Proof. intros Hf. unfold path_exists. rewrite Hf. by apply bool_decide_eq_true_2. Qed.

Lemma path_exists_false (path : string) (fs : gmap string (file F)) :
  fs !! path = None → path_exists path fs = false.
Proof.
  intros Hf. unfold path_exists. rewrite Hf.
  apply bool_decide_eq_false_2. by intros [? ?].
Qed.

(** What save leaves in the store. *)
Lemma save_waveform_capture_result (filepath : string) (t v : list F)
    (pre : gmap string (scalar F)) (md : option (gmap string (scalar F)))
    (fs : gmap string (file F)) (npz json : string) :
  derived_paths filepath = Ok (npz, json) →
  save_waveform_capture filepath t v pre md fs =
    (Ok (<["npz_path" := npz]> (<["json_path" := json]> ∅)),
     <[json := JsonText (prod_map id json_encode <$> map_to_list (json_data t v pre md))]>
       (<[npz := NpzArchive (<["time_array" := t]> (<["voltage_array" := v]> ∅))]> fs)).
Proof.
  intros Hp. unfold save_waveform_capture. by rewrite io_bind_lift, Hp.
Qed.

(** What load returns when both artifacts are there and complete: the
    arrays of the archive and the entries of the sidecar, each as it is. *)
Lemma load_waveform_capture_reads (filepath : string)
    (fs : gmap string (file F)) (npz json : string)
    (arrays : gmap string (list F)) (members : list (string * jsonval F))
    (t v : list F) (p n vr tr : pyval F) :
  derived_paths filepath = Ok (npz, json) →
  fs !! npz = Some (NpzArchive arrays) →
  arrays !! "time_array" = Some t →
  arrays !! "voltage_array" = Some v →
  fs !! json = Some (JsonText members) →
  let d := dict_of_members (prod_map id json_decode <$> members) in
  d !! "preamble" = Some p →
  d !! "num_samples" = Some n →
  d !! "voltage_range_v" = Some vr →
  d !! "time_range_ms" = Some tr →
  load_waveform_capture filepath fs =
    (Ok (mkLoaded t v p (default (PDict ∅) (d !! "metadata")) n vr tr), fs).
Proof.
  intros Hp Hnpz Ht Hv Hjson d Hpre Hn Hvr Htr.
  unfold load_waveform_capture. rewrite io_bind_lift, Hp.
  rewrite (io_bind_ok _ _ fs (path_exists npz fs) fs) by done. cbv beta.
  rewrite (io_bind_ok _ _ fs (path_exists json fs) fs) by done. cbv beta.
  rewrite (path_exists_true _ _ _ Hnpz), (path_exists_true _ _ _ Hjson).
  cbn [negb orb].
  rewrite (io_bind_ok (np_load npz) _ fs arrays fs)
    by (unfold np_load; by rewrite Hnpz).
  cbv beta.
  unfold getitem. rewrite io_bind_lift, Ht. cbn [or_raise].
  rewrite io_bind_lift, Hv. cbn [or_raise].
  rewrite (io_bind_ok (json_load json) _ fs d fs)
    by (unfold json_load; by rewrite Hjson).
  cbv beta. rewrite io_bind_lift, Hpre. cbn [or_raise].
  rewrite io_bind_lift, Hn. cbn [or_raise].
  rewrite io_bind_lift, Hvr. cbn [or_raise].
  rewrite io_bind_lift, Htr. cbn [or_raise].
  reflexivity.
Qed.

(** Load after save. *)
Lemma load_after_save (filepath : string) (t v : list F)
    (pre : gmap string (scalar F)) (md : option (gmap string (scalar F)))
    (fs : gmap string (file F)) (npz json : string) :
  derived_paths filepath = Ok (npz, json) →
  load_waveform_capture filepath (save_waveform_capture filepath t v pre md fs).2 =
    (Ok (mkLoaded t v (PDict pre) (PDict (default ∅ md))
                  (PScalar (PyInt (Z.of_nat (length v))))
                  (PList (range_items v)) (PList (range_items t))),
     (save_waveform_capture filepath t v pre md fs).2).
Proof.
  intros Hp. pose proof (derived_paths_differ _ _ _ Hp) as Hne.
  rewrite (save_waveform_capture_result _ _ _ _ _ _ _ _ Hp). cbn [snd].
  pose proof (sidecar_roundtrip (json_data t v pre md)) as Hd.
  rewrite (load_waveform_capture_reads filepath _ npz json
             (<["time_array" := t]> (<["voltage_array" := v]> ∅))
             (prod_map id json_encode <$> map_to_list (json_data t v pre md))
             t v (PDict pre) (PScalar (PyInt (Z.of_nat (length v))))
             (PList (range_items v)) (PList (range_items t)) Hp).
  - rewrite Hd, lookup_fmap. unfold json_data.
    by rewrite lookup_insert_ne, lookup_insert_eq.
  - by rewrite lookup_insert_ne, lookup_insert_eq.
  - apply lookup_insert_eq.
  - by rewrite lookup_insert_ne, lookup_insert_eq.
  - apply lookup_insert_eq.
  - rewrite Hd, lookup_fmap. unfold json_data. by rewrite lookup_insert_eq.
  - rewrite Hd, lookup_fmap. unfold json_data.
    by rewrite lookup_insert_ne, lookup_insert_ne, lookup_insert_eq.
  - rewrite Hd, lookup_fmap. unfold json_data.
    by rewrite lookup_insert_ne, lookup_insert_ne, lookup_insert_ne,
               lookup_insert_ne, lookup_insert_eq.
  - rewrite Hd, lookup_fmap. unfold json_data.
    by rewrite lookup_insert_ne, lookup_insert_ne, lookup_insert_ne, lookup_insert_eq.
Qed.

End PersistenceFacts.

Lemma prefix_append (s t : string) : String.prefix s (s +:+ t) = true.
Proof.
  induction s as [|c s IH].
  - by destruct t.
  - change (String c s +:+ t) with (String c (s +:+ t)). cbn.
    destruct (Ascii.ascii_dec c c); [exact IH|done].
Qed.

Lemma prefix_refl (s : string) : String.prefix s s = true.
Proof.
  induction s as [|c s IH]; [done|]. cbn.
  destruct (Ascii.ascii_dec c c); [exact IH|done].
Qed.

Lemma contains_prefix (needle s : string) :
  String.prefix needle s = true → contains needle s = true.
Proof.
  intros Hp. destruct s as [|c s].
  - change (String.prefix needle EmptyString || false = true). by rewrite Hp.
  - change (String.prefix needle (String c s) || contains needle s = true).
    by rewrite Hp.
Qed.

Lemma contains_skip (needle before s : string) :
  contains needle s = true → contains needle (before +:+ s) = true.
Proof.
  intros Hs. induction before as [|c b IH]; [done|].
  change (String c b +:+ s) with (String c (b +:+ s)). cbn.
  rewrite IH. apply orb_true_r.
Qed.

Section PersistenceClaims.
Context {F : Type} `{Numeric F} `{PathLibLaws}.


(** Without metadata (the default [None]) the loaded metadata is the
    empty dictionary. *)
Lemma save_load_without_metadata (filepath : string) (t v : list F)
    (pre : gmap string (scalar F)) (fs : gmap string (file F))
    (npz json : string) :
  derived_paths filepath = Ok (npz, json) →
  ∃ L, load_waveform_capture filepath
         (save_waveform_capture filepath t v pre None fs).2
       = (Ok L, (save_waveform_capture filepath t v pre None fs).2)
       ∧ metadata L = PDict ∅.
Proof.
  intros Hp. eexists. split; [exact (load_after_save _ _ _ _ None _ npz json Hp)|done].
Qed.

(** C7. When either derived artifact is missing from the store, whichever
    it is and whether or not the other is there, load raises
    FileNotFoundError, with a message in which both the array-store path
    and the sidecar path occur; nothing is loaded from the file that is
    there. *)
Theorem load_missing_artifact (filepath : string) (fs : gmap string (file F))
    (npz json : string) :
  derived_paths filepath = Ok (npz, json) →
  fs !! npz = None ∨ fs !! json = None →
  load_waveform_capture filepath fs
    = (Raise (FileNotFoundError (not_found_message npz json)), fs) ∧
  contains npz (not_found_message npz json) = true ∧
  contains json (not_found_message npz json) = true.
Proof.
  intros Hp Hmiss. split; [|split].
  - unfold load_waveform_capture. rewrite io_bind_lift, Hp.
    rewrite (io_bind_ok _ _ fs (path_exists npz fs) fs) by done. cbv beta.
    rewrite (io_bind_ok _ _ fs (path_exists json fs) fs) by done. cbv beta.
    destruct Hmiss as [Hm|Hm]; rewrite (path_exists_false _ _ Hm).
    + done.
    + by rewrite orb_true_r.
  - unfold not_found_message. do 3 apply contains_skip.
    apply contains_prefix, prefix_append.
  - unfold not_found_message. do 6 apply contains_skip.
    apply contains_prefix, prefix_refl.
Qed.

(** C8, as the code has it.  Load compares nothing: it returns the arrays
    of the archive and the num_samples of the sidecar as they stand
    ([load_waveform_capture_reads]).  For a pair of artifacts written by
    save, the num_samples it returns is the length of the voltage array it
    returns. *)
Theorem load_after_save_sample_count (filepath : string) (t v : list F)
    (pre : gmap string (scalar F)) (md : option (gmap string (scalar F)))
    (fs : gmap string (file F)) (npz json : string) :
  derived_paths filepath = Ok (npz, json) →
  ∃ L, (load_waveform_capture filepath
          (save_waveform_capture filepath t v pre md fs).2).1 = Ok L ∧
       num_samples L = PScalar (PyInt (Z.of_nat (length (voltage_array L)))).
Proof.
  intros Hp. rewrite (load_after_save _ _ _ _ _ _ _ _ Hp).
  eexists. split; reflexivity.
Qed.

End PersistenceClaims.

(** The reference paths obey the law of the two suffixes. *)
#[global] Instance posix_laws : PathLibLaws (H := Posix.pathlib).
Proof.
  split. intros base a b Ha Hb Heq. subst b.
  cbn [with_suffix Posix.pathlib] in Ha, Hb.
  unfold Posix.with_suffix_bytes in Ha, Hb.
  destruct (Posix.split_name (list_byte_of_string base)) as [dir name].
  destruct name as [|c name]; [discriminate Ha|].
  change (list_byte_of_string ".npz") with [x2e; x6e; x70; x7a] in Ha.
  change (list_byte_of_string ".json") with [x2e; x6a; x73; x6f; x6e] in Hb.
  change (code x2e =? 46) with true in Ha, Hb.
  cbn [fmap result_fmap] in Ha, Hb. rewrite <- Hb in Ha.
  injection Ha as Ha.
  apply (f_equal list_byte_of_string) in Ha.
  rewrite !list_byte_of_string_of_list_byte in Ha.
  do 2 apply app_inv_head in Ha. discriminate Ha.
Qed.


Lemma load_missing_artifact_witness :
  (load_waveform_capture (F:=float) "cap" Example.sidecar_only).1
    = Raise (FileNotFoundError (not_found_message "cap.npz" "cap.json")).
Proof.
  destruct (load_missing_artifact (F:=float) (H0:=Posix.pathlib) "cap" Example.sidecar_only
              "cap.npz" "cap.json" eq_refl (or_introl eq_refl)) as [Hload _].
  rewrite Hload. reflexivity.
Defined.

Lemma load_after_save_sample_count_witness :
  ∃ L, (load_waveform_capture (F:=float) "out/run.dat"
          (save_waveform_capture "out/run.dat" [0%float; 1%float] [2%float; 3%float]
             ∅ None ∅).2).1 = Ok L
       ∧ num_samples L = PScalar (PyInt (Z.of_nat (length (voltage_array L)))).
Proof.
  exact (load_after_save_sample_count (F:=float) (H1:=posix_laws) "out/run.dat"
           [0%float; 1%float] [2%float; 3%float] ∅ None ∅
           "out/run.npz" "out/run.json" eq_refl).
Defined.

(** C8, as stated, fails: both files exist, the archive holds one sample,
    the sidecar records five, and load returns both without complaint. *)
Lemma load_accepts_disagreeing_sample_count :
  ∃ L, (load_waveform_capture (F:=float) "cap" Example.mismatched_store).1 = Ok L
       ∧ is_Some (Example.mismatched_store !! "cap.npz")
       ∧ is_Some (Example.mismatched_store !! "cap.json")
       ∧ num_samples L = PScalar (PyInt 5)
       ∧ length (voltage_array L) = 1%nat
       ∧ length (time_array L) = 1%nat.
Proof.
  eexists. split; [vm_compute; reflexivity|].
  repeat split; try reflexivity; by eexists.
Qed.

(** * Further properties of the code *)

(** ** Calibration (capture_waveform, lines 58-62) *)

Lemma exact_of_Z_one : Exact.of_Z 1 = 1%Qc.
Proof. apply Qc_is_canon. reflexivity. Qed.

Lemma exact_of_Z_zero : Exact.of_Z 0 = 0%Qc.
Proof. apply Qc_is_canon. reflexivity. Qed.

Lemma exact_of_Z_pos (k : Z) : 0 < k → (0 < Exact.of_Z k)%Qc.
Proof.
  intros Hk. unfold Qclt. change (this 0%Qc) with 0%Q.
  unfold Exact.of_Z. cbn [this Q2Qc].
  rewrite Qred_correct. unfold Qlt, inject_Z. cbn. lia.
Qed.

Lemma centred_total (a : list Z) (m y : Qc) :
  exact_total ((λ b, (Exact.of_Z b - m) * y)%Qc <$> a)
  = ((Exact.of_Z (int_sum a) - Exact.of_Z (Z.of_nat (length a)) * m) * y)%Qc.
Proof.
  induction a as [|z a IH].
  - change (Q2Qc 0 = ((Exact.of_Z 0 - Exact.of_Z 0 * m) * y)%Qc).
    rewrite exact_of_Z_zero. change (Q2Qc 0) with 0%Qc. ring.
  - rewrite fmap_cons. cbn [exact_total fold_right length int_sum].
    fold (exact_total ((λ b, (Exact.of_Z b - m) * y)%Qc <$> a)) (int_sum a).
    rewrite IH, Nat2Z.inj_succ, <- Z.add_1_l, !exact_of_Z_add, exact_of_Z_one.
    ring.
Qed.




Lemma int_sum_replicate (n : nat) (c : Z) :
  int_sum (replicate n c) = Z.of_nat n * c.
Proof.
  induction n as [|n IH]; [done|].
  cbn [replicate int_sum fold_right]. fold (int_sum (replicate n c)). lia.
Qed.


(** X4. Calibration uses x_increment, x_origin and y_increment only: two
    preambles that agree on these give the same time axis and voltages,
    whatever their points, y_origin and y_reference (the reference level
    reported by the instrument plays no part). *)
Theorem calibrate_ignores_reported_reference {F : Type} `{Numeric F}
    (B : list byte) (P P' : Preamble F) :
  x_increment P = x_increment P' →
  x_origin P = x_origin P' →
  y_increment P = y_increment P' →
  calibrate B P = calibrate B P'.
Proof. intros Hxi Hxo Hyi. unfold calibrate. by rewrite Hxi, Hxo, Hyi. Qed.

Lemma calibrate_ignores_reported_reference_witness :
  calibrate (F:=float) [x01; x02; x06] (mkPreamble 3 1%float 0%float 2%float 0%float 127)
  = calibrate (F:=float) [x01; x02; x06] (mkPreamble 1200 1%float 0%float 2%float 5%float 0).
Proof.
  apply (calibrate_ignores_reported_reference (F:=float)); reflexivity.
Defined.

(** ** The block reader (capture_waveform, lines 41-54) *)

Lemma bytes_eqb_eq (a b : list byte) : bytes_eqb a b = true ↔ a = b.
Proof.
  revert b. induction a as [|x a IH]; intros [|y b]; cbn; try done.
  rewrite andb_true_iff, IH. split.
  - intros [Hxy ->]. by rewrite (Byte.byte_dec_bl _ _ Hxy).
  - intros [= -> ->]. split; [by apply Byte.byte_dec_lb|done].
Qed.

Lemma py_int_bytes_not_digit (d : byte) :
  is_digit d = false → py_int_bytes [d] = Raise ValueError.
Proof. destruct d; intros Hd; try discriminate Hd; reflexivity. Qed.

Lemma strip_bytes_id (space : byte → bool) (l : list byte) :
  (∀ a m, l = a :: m → space a = false) →
  (∀ z m, rev l = z :: m → space z = false) →
  strip_bytes space l = l.
Proof.
  intros Hfirst Hlast. unfold strip_bytes.
  assert (Hl : lstrip space l = l).
  { destruct l as [|a m]; [done|]. apply lstrip_nonspace. eauto. }
  rewrite Hl.
  assert (Hr : lstrip space (rev l) = rev l).
  { destruct (rev l) as [|z m] eqn:E; [done|]. apply lstrip_nonspace. eauto. }
  by rewrite Hr, rev_involutive.
Qed.

Lemma int_ascii_signed (negative : bool) (digits : list byte) :
  (0 < length digits)%nat → forallb is_digit digits = true →
  int_ascii is_space_str ((if negative then x2d else x2b) :: digits)
    = Some (if negative then - decimal digits else decimal digits).
Proof.
  intros Hn Hd. unfold int_ascii. rewrite strip_bytes_id.
  - destruct digits as [|b l]; [cbn in Hn; lia|].
    cbn in Hd. apply andb_prop in Hd as [Hb Hl].
    destruct negative.
    + change (code x2d =? 45) with true. cbv beta iota.
      rewrite Hb, (int_digits_all_digits _ _ Hl). reflexivity.
    + change (code x2b =? 45) with false. change (code x2b =? 43) with true.
      cbv beta iota. rewrite Hb, (int_digits_all_digits _ _ Hl). reflexivity.
  - intros a m [= <- _]. by destruct negative.
  - intros z m Hrev. cbn [rev] in Hrev.
    destruct (rev digits) as [|z' m'] eqn:E.
    + apply (f_equal (@length byte)) in E. rewrite length_rev in E. cbn in E. lia.
    + cbn in Hrev. injection Hrev as <- _. apply digit_not_space.
      rewrite forallb_forall in Hd. apply Hd, in_rev. rewrite E. by left.
Qed.

Section BlockReaderEdges.
Context {F : Type} `{Builtins F} {T : Type} `{Transport T}.

(** X5. When the header read raises, the exception propagates; when it
    returns bytes that do not start with [#] (or no byte at all), the
    block reader raises ValueError.  In both cases nothing more is read:
    the session is left as the header read left it. *)
Theorem read_block_rejects_bad_marker (t t1 : T) :
  (∀ e, inst_read_raw 11 t = (Raise e, t1) →
        read_block (F:=F) t = (Raise e, t1)) ∧
  (∀ header, inst_read_raw 11 t = (Ok header, t1) →
             head header ≠ Some x23 →
             read_block (F:=F) t = (Raise ValueError, t1)).
Proof.
  split.
  - intros e Hread. unfold read_block. by rewrite (io_bind_raise _ _ _ _ _ Hread).
  - intros header Hread Hhead. unfold read_block.
    rewrite (io_bind_ok _ _ _ _ _ Hread).
    destruct (bytes_eqb (slice 0 1 header) [x23]) eqn:E; [|done].
    apply bytes_eqb_eq in E. destruct header as [|b header]; [done|].
    cbn in E. injection E as ->. by destruct Hhead.
Qed.

(** X6. A header whose digit count is missing, is not an ASCII digit, or
    is the digit 0 (the indefinite-length form of the block format) makes
    the block reader raise ValueError without reading a payload. *)
Theorem read_block_rejects_bad_digit_count (t t1 : T) (tail : list byte) :
  inst_read_raw 11 t = (Ok (x23 :: tail), t1) →
  match tail with
  | [] => True
  | d :: _ => is_digit d = false ∨ d = x30
  end →
  read_block (F:=F) t = (Raise ValueError, t1).
Proof.
  intros Hread Htail. unfold read_block.
  rewrite (io_bind_ok _ _ _ _ _ Hread).
  change (slice 0 1 (x23 :: tail)) with [x23].
  change (bytes_eqb [x23] [x23]) with true. cbn [negb].
  destruct tail as [|d rest].
  - by rewrite io_bind_lift.
  - change (slice 1 2 (x23 :: d :: rest)) with [d].
    destruct Htail as [Hd | ->].
    + by rewrite io_bind_lift, (py_int_bytes_not_digit _ Hd).
    + rewrite io_bind_lift. change (py_int_bytes [x30]) with (Ok 0 : result Z).
      cbv beta iota.
      change (slice 2 (2 + Z.to_nat 0) (x23 :: x30 :: rest)) with (@nil byte).
      by rewrite io_bind_lift.
Qed.

(** X7. The length field is converted with int(), which takes a sign: a
    header whose field is [+] or [-] followed by digits is not rejected.
    The payload read then asks for the signed value, a negative number of
    bytes after a [-]. *)
Theorem read_block_accepts_signed_length (t t1 : T) (d : byte) (negative : bool)
    (digits rest : list byte) :
  inst_read_raw 11 t
    = (Ok (x23 :: d :: (if negative then x2d else x2b) :: digits ++ rest), t1) →
  is_digit d = true →
  digit_value d = Z.of_nat (S (length digits)) →
  (0 < length digits)%nat →
  forallb is_digit digits = true →
  read_block (F:=F) t
    = inst_read_raw (if negative then - decimal digits else decimal digits) t1.
Proof.
  intros Hread Hd Hlen Hpos Hdigits. unfold read_block.
  rewrite (io_bind_ok _ _ _ _ _ Hread).
  set (sign := if negative then x2d else x2b) in *.
  change (slice 0 1 (x23 :: d :: sign :: digits ++ rest)) with [x23].
  change (slice 1 2 (x23 :: d :: sign :: digits ++ rest)) with [d].
  change (bytes_eqb [x23] [x23]) with true. cbn [negb].
  rewrite io_bind_lift, (py_int_bytes_digit _ Hd), Hlen, Nat2Z.id.
  replace (slice 2 (2 + S (length digits)) (x23 :: d :: sign :: digits ++ rest))
    with (sign :: digits).
  2:{ unfold slice.
      replace (2 + S (length digits) - 2)%nat with (S (length digits)) by lia.
      change (drop 2 (x23 :: d :: sign :: digits ++ rest)) with (sign :: digits ++ rest).
      cbn [take]. by rewrite take_app_length. }
  assert (Hascii : ascii_only (sign :: digits) = true).
  { unfold ascii_only. cbn [forallb]. fold (ascii_only digits).
    rewrite (digits_ascii_only _ Hdigits). subst sign. by destruct negative. }
  unfold decode_utf8. rewrite Hascii, io_bind_lift, io_bind_lift.
  unfold py_int_str.
  rewrite list_byte_of_string_of_list_byte, Hascii.
  replace (Nat.leb (length (sign :: digits)) 4300) with true.
  2:{ symmetry. apply Nat.leb_le. cbn [length].
      pose proof (is_digit_code _ Hd). unfold digit_value in Hlen. lia. }
  cbn [andb]. subst sign. by rewrite int_ascii_signed.
Qed.

End BlockReaderEdges.

Lemma read_block_rejects_bad_marker_witness :
  read_block (F:=Qc) (Example.session "9000000004ABCD")
  = (Raise ValueError,
     Fake.mk 5000 "utf-8" true [Example.preamble_reply] (list_byte_of_string "BCD") []).
Proof.
  apply (proj2 (read_block_rejects_bad_marker (F:=Qc) (Example.session "9000000004ABCD") _)
           (list_byte_of_string "9000000004A")).
  - reflexivity.
  - discriminate.
Defined.

Lemma read_block_rejects_bad_digit_count_witness :
  read_block (F:=Qc) (Example.session "#0ABCDEFGHIJKL")
  = (Raise ValueError,
     Fake.mk 5000 "utf-8" true [Example.preamble_reply] (list_byte_of_string "JKL") []).
Proof.
  apply (read_block_rejects_bad_digit_count (F:=Qc) (Example.session "#0ABCDEFGHIJKL") _
           (list_byte_of_string "0ABCDEFGHI")).
  - reflexivity.
  - right. reflexivity.
Defined.

Lemma read_block_accepts_signed_length_witness :
  read_block (F:=Qc) (Example.session "#2-5ABCDEFGHIJKL")
  = inst_read_raw (-5)
      (Fake.mk 5000 "utf-8" true [Example.preamble_reply] (list_byte_of_string "HIJKL") []).
Proof.
  apply (read_block_accepts_signed_length (F:=Qc) (Example.session "#2-5ABCDEFGHIJKL") _
           "2"%byte true (list_byte_of_string "5") (list_byte_of_string "ABCDEFG")).
  - reflexivity.
  - reflexivity.
  - reflexivity.
  - cbn. lia.
  - reflexivity.
Defined.

(** ** capture_waveform as a whole *)

Lemma io_bind_inv {T A B} (m : io T A) (f : A → io T B) t b t' :
  (m ≫= f) t = (Ok b, t') → ∃ a t1, m t = (Ok a, t1) ∧ f a t1 = (Ok b, t').
Proof.
  unfold mbind, io_bind. destruct (m t) as [[a|e] t1]; [eauto|discriminate].
Qed.

Lemma calibrate_same_length {F : Type} `{Numeric F} (B : list byte) (P : Preamble F) :
  length (calibrate B P).1 = length (calibrate B P).2.
Proof.
  unfold calibrate. cbn [fst snd]. by rewrite length_fmap, length_np_arange.
Qed.

Section CaptureShape.
Context {F : Type} `{Numeric F} `{Builtins F} {T : Type} `{Transport T}.

(** X8. Whenever capture_waveform returns, on any session, what it
    returns is the calibration of some byte sequence under the preamble
    parsed from some reply, together with the dictionary of that
    preamble: in particular the time axis and the voltage sequence have
    the same length. *)
Theorem capture_waveform_returns_calibrated (channel : string)
    (osc osc' : RigolInstrument T) (time_axis y_data : list F)
    (d : gmap string (scalar F)) :
  capture_waveform channel osc = (Ok (time_axis, y_data, d), osc') →
  ∃ reply P raw_bytes,
    parse_preamble reply = Ok P ∧
    calibrate raw_bytes P = (time_axis, y_data) ∧
    d = preamble_dict P ∧
    length time_axis = length y_data.
Proof.
  unfold capture_waveform. intros Hrun.
  apply io_bind_inv in Hrun as (_ & o1 & _ & Hrun).
  apply io_bind_inv in Hrun as (_ & o2 & _ & Hrun).
  apply io_bind_inv in Hrun as (_ & o3 & _ & Hrun).
  apply io_bind_inv in Hrun as (reply & o4 & _ & Hrun).
  apply io_bind_inv in Hrun as (P & o5 & HP & Hrun).
  apply io_bind_inv in Hrun as (_ & o6 & _ & Hrun).
  apply io_bind_inv in Hrun as (z & o7 & _ & Hrun).
  apply io_bind_inv in Hrun as (_ & o8 & _ & Hrun).
  unfold try_finally in Hrun.
  destruct ((on_inst read_block ≫= _) o8) as [r o9] eqn:Hbody.
  injection Hrun as -> _.
  apply io_bind_inv in Hbody as (raw & o10 & _ & Hret).
  pose proof (calibrate_same_length raw P) as Hlen.
  destruct (calibrate raw P) as [ta yd] eqn:Hcal.
  injection Hret as <- <- <- _.
  exists reply, P, raw. unfold lift in HP. injection HP as HP _.
  by rewrite Hcal.
Qed.

End CaptureShape.

Lemma capture_waveform_returns_calibrated_witness :
  ∃ (time_axis y_data : list Qc) d reply (P : Preamble Qc) raw_bytes,
    parse_preamble reply = Ok P ∧
    calibrate raw_bytes P = (time_axis, y_data) ∧
    d = preamble_dict P ∧
    length time_axis = length y_data.
Proof.
  do 3 eexists.
  eapply (capture_waveform_returns_calibrated (F:=Qc) "CHAN1"
            (Example.scope "#9000000004ABCD")).
  vm_compute. reflexivity.
Defined.

Section ScriptedCapture.
Context {F : Type} `{Numeric F} `{Builtins F}.

Lemma scripted_write (v : Z) (n ty : string) (to : Z) (enc : string)
    (reps : list string) (rx : list byte) (sent : list string) (c : string) :
  write c (mkRigolInstrument v (Fake.mk to enc true reps rx sent) n ty)
  = (Ok (), mkRigolInstrument v (Fake.mk to enc true reps rx (sent ++ [c])) n ty).
Proof. reflexivity. Qed.

Lemma scripted_query (v : Z) (n ty : string) (to : Z) (enc : string)
    (reply : string) (reps : list string) (rx : list byte) (sent : list string)
    (c : string) :
  query c (mkRigolInstrument v (Fake.mk to enc true (reply :: reps) rx sent) n ty)
  = (Ok reply, mkRigolInstrument v (Fake.mk to enc true reps rx (sent ++ [c])) n ty).
Proof. reflexivity. Qed.

(** The block reader on a scripted session that holds a block with a
    nine-digit header: the payload is returned and what follows the block
    stays pending. *)
Lemma scripted_read_block (to : Z) (enc : string) (reps : list string)
    (sent : list string) (digits payload tail : list byte) :
  well_formed_header "9"%byte digits →
  Z.of_nat (length payload) = decimal digits →
  read_block (F:=F)
    (Fake.mk to enc true reps (x23 :: "9"%byte :: digits ++ payload ++ tail) sent)
  = (Ok payload, Fake.mk to enc true reps tail sent).
Proof.
  intros Hwf Hn.
  assert (Hlen : length digits = 9%nat).
  { destruct Hwf as (_ & Hlen & _). change (digit_value "9"%byte) with 9 in Hlen. lia. }
  rewrite (read_block_decodes (F:=F) _
             (Fake.mk to enc true reps (payload ++ tail) sent) "9"%byte digits []);
    [| |done].
  - rewrite <- Hn. cbn. unfold Fake.read_raw. cbn.
    by rewrite Nat2Z.id, take_app_length, drop_app_length.
  - cbn. unfold Fake.read_raw. cbn. do 2 f_equal.
    + change (take (Z.to_nat 11) (x23 :: "9"%byte :: digits ++ payload ++ tail))
        with (x23 :: "9"%byte :: take 9 (digits ++ payload ++ tail)).
      by rewrite <- Hlen, take_app_length, app_nil_r.
    + f_equal.
      change (drop (Z.to_nat 11) (x23 :: "9"%byte :: digits ++ payload ++ tail))
        with (drop 9 (digits ++ payload ++ tail)).
      by rewrite <- Hlen, drop_app_length.
Qed.



End ScriptedCapture.



(** ** save_waveform_capture and load_waveform_capture *)

Section PersistenceEdges.
Context {F : Type} `{Numeric F} `{PathLib}.

(** X11. Save writes the two derived paths and nothing else: every other
    path of the store holds what it held before.  When the paths cannot
    be derived, save raises what pathlib raised and writes nothing. *)
Theorem save_waveform_capture_frame (filepath : string) (t v : list F)
    (pre : gmap string (scalar F)) (md : option (gmap string (scalar F)))
    (fs : gmap string (file F)) :
  (∀ npz json q, derived_paths filepath = Ok (npz, json) →
                 q ≠ npz → q ≠ json →
                 (save_waveform_capture filepath t v pre md fs).2 !! q = fs !! q) ∧
  (∀ e, derived_paths filepath = Raise e →
        save_waveform_capture filepath t v pre md fs = (Raise e, fs)).
Proof.
  split.
  - intros npz json q Hp Hnpz Hjson.
    rewrite (save_waveform_capture_result _ _ _ _ _ _ _ _ Hp). cbn [snd].
    by rewrite !lookup_insert_ne.
  - intros e Hp. unfold save_waveform_capture. by rewrite io_bind_lift, Hp.
Qed.


(** X14. When both files exist and the array store is complete, the
    sidecar decides the outcome.  The keys preamble, num_samples,
    voltage_range_v and time_range_ms are required: the first one missing,
    in this order, is the key of the KeyError that load raises.  The key
    metadata is optional: when it is missing the loaded metadata is the
    empty dictionary.  Otherwise the entries are returned as they are. *)
Theorem load_waveform_capture_sidecar_keys (filepath : string)
    (fs : gmap string (file F)) (npz json : string)
    (arrays : gmap string (list F)) (members : list (string * jsonval F))
    (t v : list F) :
  derived_paths filepath = Ok (npz, json) →
  fs !! npz = Some (NpzArchive arrays) →
  arrays !! "time_array" = Some t →
  arrays !! "voltage_array" = Some v →
  fs !! json = Some (JsonText members) →
  let d := dict_of_members (prod_map id json_decode <$> members) in
  load_waveform_capture filepath fs =
    (match d !! "preamble", d !! "num_samples",
           d !! "voltage_range_v", d !! "time_range_ms" with
     | None, _, _, _ => Raise (KeyError "preamble")
     | Some _, None, _, _ => Raise (KeyError "num_samples")
     | Some _, Some _, None, _ => Raise (KeyError "voltage_range_v")
     | Some _, Some _, Some _, None => Raise (KeyError "time_range_ms")
     | Some p, Some n, Some vr, Some tr =>
         Ok (mkLoaded t v p (default (PDict ∅) (d !! "metadata")) n vr tr)
     end, fs).
Proof.
  intros Hp Hnpz Ht Hv Hjson d.
  unfold load_waveform_capture. rewrite io_bind_lift, Hp.
  rewrite (io_bind_ok _ _ fs (path_exists npz fs) fs) by done. cbv beta.
  rewrite (io_bind_ok _ _ fs (path_exists json fs) fs) by done. cbv beta.
  rewrite (path_exists_true _ _ _ Hnpz), (path_exists_true _ _ _ Hjson).
  cbn [negb orb].
  rewrite (io_bind_ok (np_load npz) _ fs arrays fs)
    by (unfold np_load; by rewrite Hnpz).
  cbv beta.
  unfold getitem. rewrite io_bind_lift, Ht. cbn [or_raise].
  rewrite io_bind_lift, Hv. cbn [or_raise].
  rewrite (io_bind_ok (json_load json) _ fs d fs)
    by (unfold json_load; by rewrite Hjson).
  cbv beta.
  rewrite io_bind_lift.
  destruct (d !! "preamble") as [p|]; cbn [or_raise]; [|done].
  rewrite io_bind_lift.
  destruct (d !! "num_samples") as [n|]; cbn [or_raise]; [|done].
  rewrite io_bind_lift.
  destruct (d !! "voltage_range_v") as [vr|]; cbn [or_raise]; [|done].
  rewrite io_bind_lift.
  destruct (d !! "time_range_ms") as [tr|]; cbn [or_raise]; [|done].
  reflexivity.
Qed.

End PersistenceEdges.

Section PersistenceOverwrite.
Context {F : Type} `{Numeric F} `{PathLibLaws}.

(** X12. Saving again to the same path replaces both artifacts: the store
    after two saves is the store after the second alone, so a later load
    sees nothing of the first capture. *)
Theorem save_waveform_capture_replaces (filepath : string) (t1 v1 t2 v2 : list F)
    (pre1 pre2 : gmap string (scalar F)) (md1 md2 : option (gmap string (scalar F)))
    (fs : gmap string (file F)) (npz json : string) :
  derived_paths filepath = Ok (npz, json) →
  (save_waveform_capture filepath t2 v2 pre2 md2
     (save_waveform_capture filepath t1 v1 pre1 md1 fs).2).2
  = (save_waveform_capture filepath t2 v2 pre2 md2 fs).2.
Proof.
  intros Hp. pose proof (derived_paths_differ _ _ _ Hp) as Hne.
  rewrite !(save_waveform_capture_result _ _ _ _ _ _ _ _ Hp). cbn [snd].
  rewrite (insert_insert_ne (<[npz := _]> fs) npz json) by done.
  by rewrite insert_insert_eq, insert_insert_eq.
Qed.

End PersistenceOverwrite.

Lemma save_waveform_capture_frame_witness :
  (save_waveform_capture (F:=float) "out/run.dat" [0%float] [1%float] ∅ None
     Example.sidecar_only).2 !! "cap.json"
  = Example.sidecar_only !! "cap.json".
Proof.
  apply (proj1 (save_waveform_capture_frame (F:=float) (H0:=Posix.pathlib)
                  "out/run.dat" [0%float] [1%float] ∅ None Example.sidecar_only)
           "out/run.npz" "out/run.json" "cap.json").
  - reflexivity.
  - discriminate.
  - discriminate.
Defined.

Lemma save_waveform_capture_replaces_witness :
  (save_waveform_capture (F:=float) "out/run" [5%float] [6%float] ∅ None
     (save_waveform_capture "out/run" [0%float; 1%float] [2%float; 3%float] ∅ None ∅).2).2
  = (save_waveform_capture (F:=float) "out/run" [5%float] [6%float] ∅ None ∅).2.
Proof.
  apply (save_waveform_capture_replaces (F:=float) (H1:=posix_laws) "out/run"
           _ _ _ _ _ _ _ _ ∅ "out/run.npz" "out/run.json").
  reflexivity.
Defined.


Lemma load_waveform_capture_sidecar_keys_witness :
  load_waveform_capture (F:=float) "cap"
    (<["cap.npz" := NpzArchive (<["time_array" := [0%float]]>
                                  (<["voltage_array" := [1%float]]> ∅))]>
       Example.sidecar_only)
  = (Raise (KeyError "voltage_range_v"),
     <["cap.npz" := NpzArchive (<["time_array" := [0%float]]>
                                  (<["voltage_array" := [1%float]]> ∅))]>
       Example.sidecar_only).
Proof.
  pose proof (load_waveform_capture_sidecar_keys (F:=float) (H0:=Posix.pathlib)
                "cap"
                (<["cap.npz" := NpzArchive (<["time_array" := [0%float]]>
                                              (<["voltage_array" := [1%float]]> ∅))]>
                   Example.sidecar_only)
                "cap.npz" "cap.json"
                (<["time_array" := [0%float]]> (<["voltage_array" := [1%float]]> ∅))
                [("preamble", JObject []); ("num_samples", JScalar (PyInt 0))]
                [0%float] [1%float]) as Hkeys.
  rewrite Hkeys; reflexivity.
Defined.

(** ** RigolInstrument: get_idn, __init__, classify_instrument *)

Section InstrumentEdges.
Context {T : Type} `{Transport T}.


(** X16. The constructor raises what opening the resource raises.  When
    it returns an object, the object keeps the verbosity it was given and
    its type is the classification of its identification string. *)
Theorem RigolInstrument_init_outcomes (open_resource : string → result T)
    (resource_name : string) (verbose0 : Z) :
  (∀ e, open_resource resource_name = Raise e →
        RigolInstrument_init open_resource resource_name verbose0 = Raise e) ∧
  (∀ self, RigolInstrument_init open_resource resource_name verbose0 = Ok self →
           verbose self = verbose0 ∧
           instrument_type self = classify_instrument (idn self)).
Proof.
  split.
  - intros e Hopen. unfold RigolInstrument_init. by rewrite Hopen.
  - intros self. unfold RigolInstrument_init.
    destruct (open_resource resource_name) as [opened|e]; [|done]. cbn.
    destruct (get_idn verbose0 _) as [[s|e] i']; [|done].
    by intros [= <-].
Qed.

End InstrumentEdges.

Section InstrumentTimeout.
Context {T : Type} `{TransportLaws T}.

Lemma get_idn_keeps_timeout (verbose : Z) (i : T) :
  inst_timeout (get_idn verbose i).2 = inst_timeout i.
Proof.
  unfold get_idn, mbind, io_bind.
  pose proof (timeout_write "*IDN?" i) as Hw.
  destruct (inst_write "*IDN?" i) as [[[]|e] i1]; cbn [snd] in Hw.
  - pose proof (timeout_read i1) as Hr.
    destruct (inst_read i1) as [[reply|e] i2]; cbn [snd] in Hr.
    + cbn. congruence.
    + destruct e; cbn; congruence.
  - destruct e; cbn; congruence.
Qed.

(** X17. On a session where assigning the encoding leaves the timeout
    alone, every object the constructor returns has a session timeout of
    5000 ms, whatever the timeout of the resource was when it was opened
    and however the identification query went. *)
Theorem RigolInstrument_init_timeout (open_resource : string → result T)
    (resource_name : string) (verbose : Z) (self : RigolInstrument T) :
  (∀ e t, inst_timeout (inst_set_encoding e t) = inst_timeout t) →
  RigolInstrument_init open_resource resource_name verbose = Ok self →
  inst_timeout (inst self) = 5000.
Proof.
  intros Henc. unfold RigolInstrument_init.
  destruct (open_resource resource_name) as [opened|e]; [|done]. cbn.
  pose proof (get_idn_keeps_timeout verbose
                (inst_set_encoding "utf-8" (inst_set_timeout 5000 opened))) as Hidn.
  destruct (get_idn verbose _) as [[s|e] i']; [|done].
  intros [= <-]. cbn [inst snd] in *.
  by rewrite Hidn, Henc, timeout_set.
Qed.

End InstrumentTimeout.


Lemma RigolInstrument_init_outcomes_witness :
  RigolInstrument_init (T:=Fake.session) (λ _, Raise VisaIOError) "USB0::0x1AB1" 1
  = Raise VisaIOError.
Proof.
  apply (proj1 (RigolInstrument_init_outcomes (T:=Fake.session)
                  (λ _, Raise VisaIOError) "USB0::0x1AB1" 1)).
  reflexivity.
Defined.

Lemma RigolInstrument_init_timeout_witness :
  ∃ self, RigolInstrument_init (λ _, Ok Example.dead_session) "USB0::0x1AB1" 1 = Ok self
          ∧ inst_timeout (inst self) = 5000.
Proof.
  eexists. split; [reflexivity|].
  eapply (RigolInstrument_init_timeout (T:=Fake.session) (H0:=fake_laws)
            (λ _, Ok Example.dead_session) "USB0::0x1AB1" 1).
  - reflexivity.
  - reflexivity.
Defined.

Lemma upper_lower_byte (b : byte) : upper_byte (lower_byte b) = upper_byte b.
Proof. destruct b; reflexivity. Qed.

Lemma upper_upper_byte (b : byte) : upper_byte (upper_byte b) = upper_byte b.
Proof. destruct b; reflexivity. Qed.

Lemma upper_lower (s : string) : upper (lower s) = upper s.
Proof.
  unfold upper, lower.
  rewrite list_byte_of_string_of_list_byte, <- list_fmap_compose.
  f_equal. apply list_fmap_ext. intros i b _. apply upper_lower_byte.
Qed.

Lemma upper_upper (s : string) : upper (upper s) = upper s.
Proof.
  unfold upper.
  rewrite list_byte_of_string_of_list_byte, <- list_fmap_compose.
  f_equal. apply list_fmap_ext. intros i b _. apply upper_upper_byte.
Qed.




(** ** generate_waveform *)

(** X20. On a scripted session with the link up, generate_waveform
    returns after sending exactly four commands, in order: units,
    waveform with frequency, amplitude and offset, phase, output on.  For
    channel CH1 they are the unsuffixed commands and OUTP1 ON.  For every
    other channel name the first three carry that name, and the last is
    OUTP:CH2 ON whatever the name.  Nothing else of the session changes,
    and duty_cycle appears in no command. *)
Theorem generate_waveform_commands {V : Type} (fmt : V → string)
    (channel waveform_type : string) (frequency amplitude offset phase duty_cycle : V)
    (v : Z) (n ty : string) (to : Z) (enc : string) (reps : list string)
    (rx : list byte) (sent : list string) :
  let args := fmt frequency +:+ ", " +:+ fmt amplitude +:+ ", " +:+ fmt offset +:+ " " in
  generate_waveform fmt channel waveform_type frequency amplitude offset phase duty_cycle
    (mkRigolInstrument v (Fake.mk to enc true reps rx sent) n ty)
  = (Ok (),
     mkRigolInstrument v
       (Fake.mk to enc true reps rx
          (sent ++
           if String.eqb channel "CH1"
           then ["VOLT:UNIT VPP"%string;
                 "APPL:" +:+ waveform_type +:+ " " +:+ args;
                 "PHAS " +:+ fmt phase +:+ " ";
                 "OUTP1 ON"%string]
           else ["VOLT:UNIT:" +:+ channel +:+ " VPP";
                 "APPL:" +:+ waveform_type +:+ ":" +:+ channel +:+ " " +:+ args;
                 "PHAS:" +:+ channel +:+ " " +:+ fmt phase +:+ " ";
                 "OUTP:CH2 ON "%string])) n ty).
Proof.
  intros args. unfold generate_waveform. fold args.
  destruct (String.eqb channel "CH1").
  - rewrite (io_bind_ok _ _ _ _ _ (scripted_write _ _ _ _ _ _ _ _ _)).
    rewrite (io_bind_ok _ _ _ _ _ (scripted_write _ _ _ _ _ _ _ _ _)).
    rewrite (io_bind_ok _ _ _ _ _ (scripted_write _ _ _ _ _ _ _ _ _)).
    rewrite scripted_write. by rewrite <- !app_assoc.
  - rewrite (io_bind_ok _ _ _ _ _ (scripted_write _ _ _ _ _ _ _ _ _)).
    rewrite (io_bind_ok _ _ _ _ _ (scripted_write _ _ _ _ _ _ _ _ _)).
    rewrite (io_bind_ok _ _ _ _ _ (scripted_write _ _ _ _ _ _ _ _ _)).
    rewrite scripted_write. by rewrite <- !app_assoc.
Qed.

Section GeneratorTimeout.
Context {T : Type} `{TransportLaws T}.

(** X21. generate_waveform leaves the session's timeout as it found it,
    whether all four writes go through or one of them raises. *)
Theorem generate_waveform_keeps_timeout {V : Type} (fmt : V → string)
    (channel waveform_type : string) (frequency amplitude offset phase duty_cycle : V)
    (osc : RigolInstrument T) :
  inst_timeout
    (inst (generate_waveform fmt channel waveform_type frequency amplitude offset
             phase duty_cycle osc).2)
  = inst_timeout (inst osc).
Proof.
  revert osc.
  change (keeps_timeout (generate_waveform fmt channel waveform_type frequency
                           amplitude offset phase duty_cycle)).
  unfold generate_waveform.
  destruct (String.eqb channel "CH1");
    repeat (apply keeps_timeout_bind; [apply keeps_timeout_write|intros ?]);
    apply keeps_timeout_write.
Qed.

End GeneratorTimeout.

Lemma generate_waveform_keeps_timeout_witness :
  Fake.timeout
    (inst (generate_waveform (λ z : Z, "1000"%string) "CH2" "SQU" 1000 2 0 0 50
             (Example.scope "")).2) = 5000.
Proof.
  exact (generate_waveform_keeps_timeout (T:=Fake.session) (H0:=fake_laws)
           (λ z : Z, "1000"%string) "CH2" "SQU" 1000 2 0 0 50 (Example.scope "")).
Defined.

(** ** detect_rigol_instruments *)

Section Detection.
Context {T : Type} `{Transport T}.

Lemma detect_loop_app (open_resource : string → result T) (a b : list string)
    (found : option (RigolInstrument T) * option (RigolInstrument T)) :
  detect_loop open_resource (a ++ b) found
  = detect_loop open_resource a found ≫= detect_loop open_resource b.
Proof.
  revert found. induction a as [|d a IH]; intros found; [done|].
  cbn [app detect_loop]. unfold mbind at 1 3, result_bind.
  destruct (detect_step open_resource found d) as [found'|e]; [|done].
  apply IH.
Qed.

Lemma detect_step_types (open_resource : string → result T)
    (found found' : option (RigolInstrument T) * option (RigolInstrument T))
    (dev : string) :
  detect_step open_resource found dev = Ok found' →
  (∀ r, found.1 = Some r → instrument_type r = "generator"%string) →
  (∀ r, found.2 = Some r → instrument_type r = "oscilloscope"%string) →
  (∀ r, found'.1 = Some r → instrument_type r = "generator"%string) ∧
  (∀ r, found'.2 = Some r → instrument_type r = "oscilloscope"%string).
Proof.
  unfold detect_step, mbind, result_bind.
  destruct (RigolInstrument_init open_resource dev 1) as [rigol|e]; [|done].
  destruct (String.eqb (instrument_type rigol) "generator") eqn:Eg.
  - intros [= <-] Hg Ho. apply String.eqb_eq in Eg. split; [|done].
    cbn. by intros r [= <-].
  - destruct (String.eqb (instrument_type rigol) "oscilloscope") eqn:Eo.
    + intros [= <-] Hg Ho. apply String.eqb_eq in Eo. split; [done|].
      cbn. by intros r [= <-].
    + by intros [= <-] Hg Ho.
Qed.

(** X22. Whatever detect_rigol_instruments returns as the generator is an
    instrument classified "generator", and whatever it returns as the
    oscilloscope is one classified "oscilloscope". *)
Theorem detect_rigol_instruments_types (list_resources : list string)
    (open_resource : string → result T)
    (generator oscilloscope : option (RigolInstrument T)) :
  detect_rigol_instruments list_resources open_resource = Ok (generator, oscilloscope) →
  (∀ r, generator = Some r → instrument_type r = "generator"%string) ∧
  (∀ r, oscilloscope = Some r → instrument_type r = "oscilloscope"%string).
Proof.
  unfold detect_rigol_instruments.
  generalize (List.filter (contains "USB") list_resources). intros devices.
  assert (Hinv : ∀ found found',
            detect_loop open_resource devices found = Ok found' →
            (∀ r, found.1 = Some r → instrument_type r = "generator"%string) →
            (∀ r, found.2 = Some r → instrument_type r = "oscilloscope"%string) →
            (∀ r, found'.1 = Some r → instrument_type r = "generator"%string) ∧
            (∀ r, found'.2 = Some r → instrument_type r = "oscilloscope"%string)).
  { induction devices as [|d devices IH]; intros found found'.
    - by intros [= <-].
    - cbn [detect_loop]. unfold mbind at 1, result_bind.
      destruct (detect_step open_resource found d) as [mid|e] eqn:Estep; [|done].
      intros Hloop Hg Ho.
      destruct (detect_step_types _ _ _ _ Estep Hg Ho) as [Hg' Ho'].
      by apply (IH mid found'). }
  intros Hrun. by apply (Hinv (None, None) (generator, oscilloscope)).
Qed.

(** X23. Resources whose name does not contain USB are never opened:
    when no listed resource has USB in its name, the result is
    (None, None) whatever opening a resource would do. *)
Theorem detect_rigol_instruments_no_usb (list_resources : list string)
    (open_resource : string → result T) :
  (∀ d, In d list_resources → contains "USB" d = false) →
  detect_rigol_instruments list_resources open_resource = Ok (None, None).
Proof.
  intros Hno. unfold detect_rigol_instruments.
  replace (List.filter (contains "USB") list_resources) with (@nil string); [done|].
  symmetry. induction list_resources as [|d l IH]; [done|].
  cbn [List.filter]. rewrite (Hno d) by (by left).
  apply IH. intros d' Hd'. apply Hno. by right.
Qed.

(** X24. A USB resource that cannot be opened aborts the detection with
    the exception of the open, even when the resources listed before it
    were opened and classified: the instruments found so far are not
    returned. *)
Theorem detect_rigol_instruments_open_failure (before after : list string)
    (dev : string) (open_resource : string → result T) (e : exn)
    (found : option (RigolInstrument T) * option (RigolInstrument T)) :
  detect_rigol_instruments before open_resource = Ok found →
  contains "USB" dev = true →
  open_resource dev = Raise e →
  detect_rigol_instruments (before ++ dev :: after) open_resource = Raise e.
Proof.
  unfold detect_rigol_instruments. intros Hbefore Husb Hopen.
  rewrite List.filter_app. cbn [List.filter]. rewrite Husb.
  rewrite detect_loop_app, Hbefore.
  cbn. unfold detect_step, RigolInstrument_init. by rewrite Hopen.
Qed.

(** X25. The last instrument of a kind wins.  When the resources listed
    so far gave (generator, oscilloscope) and one more USB resource is
    wrapped successfully, the result keeps the oscilloscope and returns
    the new instrument as generator if it is a generator, keeps the
    generator and returns it as oscilloscope if it is an oscilloscope, and
    is unchanged if it is neither: an earlier instrument of the same kind
    is replaced. *)
Theorem detect_rigol_instruments_last_wins (before : list string) (dev : string)
    (open_resource : string → result T)
    (generator oscilloscope : option (RigolInstrument T))
    (rigol : RigolInstrument T) :
  detect_rigol_instruments before open_resource = Ok (generator, oscilloscope) →
  contains "USB" dev = true →
  RigolInstrument_init open_resource dev 1 = Ok rigol →
  detect_rigol_instruments (before ++ [dev]) open_resource =
    Ok (if String.eqb (instrument_type rigol) "generator"
        then (Some rigol, oscilloscope)
        else if String.eqb (instrument_type rigol) "oscilloscope"
        then (generator, Some rigol)
        else (generator, oscilloscope)).
Proof.
  unfold detect_rigol_instruments. intros Hbefore Husb Hinit.
  rewrite List.filter_app. cbn [List.filter]. rewrite Husb.
  rewrite detect_loop_app, Hbefore.
  cbn. unfold detect_step. rewrite Hinit. cbn.
  by destruct (String.eqb (instrument_type rigol) "generator"),
       (String.eqb (instrument_type rigol) "oscilloscope").
Qed.

End Detection.

Lemma detect_rigol_instruments_types_witness :
  ∃ g o,
    detect_rigol_instruments ["USB0::GEN::INSTR"; "ASRL1::OSC"; "USB0::OSC::INSTR"]%string
      Bench.open_resource = Ok (Some g, Some o)
    ∧ instrument_type g = "generator"%string
    ∧ instrument_type o = "oscilloscope"%string.
Proof.
  do 2 eexists. split; [vm_compute; reflexivity|].
  edestruct (detect_rigol_instruments_types (T:=Fake.session)
               ["USB0::GEN::INSTR"; "ASRL1::OSC"; "USB0::OSC::INSTR"]%string
               Bench.open_resource) as [Hg Ho]; [vm_compute; reflexivity|].
  split; [by apply Hg | by apply Ho].
Defined.

Lemma detect_rigol_instruments_no_usb_witness :
  detect_rigol_instruments ["TCPIP0::DEAD"; "ASRL1::GEN"]%string Bench.open_resource
  = Ok (None, None).
Proof.
  apply (detect_rigol_instruments_no_usb (T:=Fake.session)).
  intros d [<-|[<-|[]]]; reflexivity.
Defined.

Lemma detect_rigol_instruments_open_failure_witness :
  detect_rigol_instruments
    (["USB0::GEN::INSTR"%string] ++ "USB0::DEAD::INSTR"%string
       :: ["USB0::OSC::INSTR"%string])
    Bench.open_resource
  = Raise VisaIOError.
Proof.
  eapply (detect_rigol_instruments_open_failure (T:=Fake.session)).
  - vm_compute. reflexivity.
  - reflexivity.
  - reflexivity.
Defined.

Lemma detect_rigol_instruments_last_wins_witness :
  ∃ first second,
    detect_rigol_instruments ["USB0::GEN::INSTR"]%string Bench.open_resource
      = Ok (Some first, None) ∧
    RigolInstrument_init Bench.open_resource "USB1::GEN::INSTR" 1 = Ok second ∧
    detect_rigol_instruments (["USB0::GEN::INSTR"%string] ++ ["USB1::GEN::INSTR"%string])
      Bench.open_resource
      = Ok (Some second, None).
Proof.
  do 2 eexists. split; [vm_compute; reflexivity|]. split; [vm_compute; reflexivity|].
  etransitivity.
  - eapply (detect_rigol_instruments_last_wins (T:=Fake.session)
              ["USB0::GEN::INSTR"]%string "USB1::GEN::INSTR" Bench.open_resource).
    + vm_compute. reflexivity.
    + reflexivity.
    + vm_compute. reflexivity.
  - reflexivity.
Defined.

Lemma save_load_without_metadata_witness :
  ∃ L, load_waveform_capture (F:=float) "out/run.dat"
         (save_waveform_capture "out/run.dat" [0%float] [1%float] ∅ None ∅).2
       = (Ok L, (save_waveform_capture (F:=float) "out/run.dat" [0%float] [1%float]
                   ∅ None ∅).2)
       ∧ metadata L = PDict ∅.
Proof.
  exact (save_load_without_metadata (F:=float) (H1:=posix_laws) "out/run.dat"
           [0%float] [1%float] ∅ ∅ "out/run.npz" "out/run.json" eq_refl).
Defined.
